(** * pypeliner.resources: resources tracked by the dependency graph

    A shallow embedding of [pypeliner/resources.py].  The module talks to
    the filesystem, to the process-wide stat cache [pypeliner.fstatcache]
    and to the logger; all three live in one explicit [world] that every
    operation threads through a state-and-exception monad.  A raised
    exception keeps the effects performed before it, as in Python. *)

From Stdlib Require Import ZArith Ascii String.
From stdpp Require Import gmap strings list fin_maps pretty.

Local Open Scope Z_scope.

(** ** Exceptions *)

Definition ENOENT : Z := 2.
Definition EACCES : Z := 13.

(** The exception classes that reach this module.  The sources are
    Python 2: [OSError] (raised by [os.rename], [os.remove], [os.stat])
    and [IOError] (raised by [open]) are different classes. *)
Inductive exn :=
| OSError (errno : Z) (filename : string)
| IOError (errno : Z) (filename : string)
| OutputMissingException (filename : string)
| ValueError (msg : string)
| KeyError (key : string)
| IndexError (msg : string)
| UnpicklingError
| PyException (msg : string).

Global Instance exn_eq_dec : EqDecision exn.
Proof. solve_decision. Defined.

(** [OutputMissingException.__str__] *)
Definition OutputMissingException_str (filename : string) : string :=
  "expected output " +:+ filename +:+ " missing".

(** ** The world: filesystem, stat cache, clock, effect trace *)

Record file := File { content : string; mtime : Z }.

Global Instance file_eq_dec : EqDecision file.
Proof. solve_decision. Defined.

(** Effects are recorded in program order, the most recent last; only
    effects that took place are recorded. *)
Inductive event :=
| EvInvalidate (path : string)
| EvRename (src dst : string)
| EvRemove (path : string)
| EvTouch (path : string)
| EvWrite (path : string)
| EvCopystat (src dst : string)
| EvLog (logger msg : string).

Global Instance event_eq_dec : EqDecision event.
Proof. solve_decision. Defined.

Record world := World {
  fs : gmap string file;            (* the files that exist, by path *)
  denied : gset string;             (* paths the OS refuses to access *)
  cache : gmap string (option Z);   (* fstatcache: path -> observed stat *)
  now : Z;                          (* the time the next write is stamped with *)
  trace : list event
}.

Definition set_fs (f : gmap string file → gmap string file) (w : world) : world :=
  World (f (fs w)) (denied w) (cache w) (now w) (trace w).
Definition set_cache (f : gmap string (option Z) → gmap string (option Z)) (w : world) : world :=
  World (fs w) (denied w) (f (cache w)) (now w) (trace w).
Definition tick (w : world) : world :=
  World (fs w) (denied w) (cache w) (now w + 1) (trace w).
Definition emit (e : event) (w : world) : world :=
  World (fs w) (denied w) (cache w) (now w) (trace w ++ [e]).

(** ** State and exception monad *)

Inductive outcome (A : Type) :=
| Ok (a : A)
| Raise (e : exn).
Arguments Ok {A} a.
Arguments Raise {A} e.

Global Instance outcome_eq_dec {A} `{EqDecision A} : EqDecision (outcome A).
Proof. solve_decision. Defined.

Definition M (A : Type) : Type := world → outcome A * world.

Definition ret {A} (a : A) : M A := λ w, (Ok a, w).
Definition raise {A} (e : exn) : M A := λ w, (Raise e, w).
Definition bind {A B} (m : M A) (k : A → M B) : M B :=
  λ w, match m w with
       | (Ok a, w') => k a w'
       | (Raise e, w') => (Raise e, w')
       end.
(** [try: m except <handler matches e>: h e]; a handler that answers
    [None] does not match and the exception propagates. *)
Definition try_except {A} (m : M A) (h : exn → option (M A)) : M A :=
  λ w, match m w with
       | (Ok a, w') => (Ok a, w')
       | (Raise e, w') =>
           match h e with
           | Some k => k w'
           | None => (Raise e, w')
           end
       end.
Definition modify (f : world → world) : M unit := λ w, (Ok tt, f w).

Global Instance M_ret : MRet M := @ret.
Global Instance M_bind : MBind M := λ A B k m, bind m k.

Definition is_OSError (e : exn) : bool :=
  match e with OSError _ _ => true | _ => false end.

(** ** Operating-system and library calls *)

Module os.

(** [os.rename(src, dst)]: replaces [dst] by the file at [src]. *)
Definition rename (src dst : string) : M unit := λ w,
  if bool_decide (src ∈ denied w) then (Raise (OSError EACCES src), w)
  else if bool_decide (dst ∈ denied w) then (Raise (OSError EACCES dst), w)
  else match fs w !! src with
       | None => (Raise (OSError ENOENT src), w)
       | Some f =>
           (Ok tt, emit (EvRename src dst)
                     (set_fs (λ m, <[dst := f]> (delete src m)) w))
       end.

(** [os.remove(path)] *)
Definition remove (path : string) : M unit := λ w,
  if bool_decide (path ∈ denied w) then (Raise (OSError EACCES path), w)
  else match fs w !! path with
       | None => (Raise (OSError ENOENT path), w)
       | Some _ => (Ok tt, emit (EvRemove path) (set_fs (delete path) w))
       end.

(** [os.stat(path).st_mtime], [None] standing for errno 2. *)
Definition stat_mtime (path : string) (w : world) : option Z :=
  mtime <$> fs w !! path.

End os.

(** [open(path, 'rb').read()] *)
Definition open_read (path : string) : M string := λ w,
  if bool_decide (path ∈ denied w) then (Raise (IOError EACCES path), w)
  else match fs w !! path with
       | None => (Raise (IOError ENOENT path), w)
       | Some f => (Ok (content f), w)
       end.

(** [with open(path, 'wb') as f: f.write(data)]: creates or truncates. *)
Definition open_write (path : string) (data : string) : M unit := λ w,
  if bool_decide (path ∈ denied w) then (Raise (IOError EACCES path), w)
  else (Ok tt, emit (EvWrite path)
                 (tick (set_fs (λ m, <[path := File data (now w)]> m) w))).

(** [shutil.copystat(src, dst)]: of the metadata only the modification
    time is modelled. *)
Definition copystat (src dst : string) : M unit := λ w,
  match fs w !! src with
  | None => (Raise (OSError ENOENT src), w)
  | Some f =>
      match fs w !! dst with
      | None => (Raise (OSError ENOENT dst), w)
      | Some g =>
          (Ok tt, emit (EvCopystat src dst)
                    (set_fs (λ m, <[dst := File (content g) (mtime f)]> m) w))
      end
  end.

Module helpers.

(** Modelled from the spec: [pypeliner.helpers.touch] is not part of the
    sources at hand.  "touch ... marks the resource as freshly confirmed
    without rewriting its content": the file is created empty when it
    is missing, its content is kept otherwise, and its time becomes the
    current time. *)
Definition touch (path : string) : M unit := λ w,
  if bool_decide (path ∈ denied w) then (Raise (IOError EACCES path), w)
  else
    let data := default "" (content <$> fs w !! path) in
    (Ok tt, emit (EvTouch path)
              (tick (set_fs (λ m, <[path := File data (now w)]> m) w))).

(** Modelled from the spec: [pypeliner.helpers.saferemove] is not part of
    the sources at hand, and the specification has no more than the
    placeholder being replaced where it is called.  Taken by its name: it
    removes the file and accepts that the file is not there. *)
Definition saferemove (path : string) : M unit :=
  try_except (os.remove path)
    (λ e, match e with
          | OSError errno _ => if bool_decide (errno = ENOENT) then Some (ret tt) else None
          | _ => None
          end).

End helpers.

Module fstatcache.

(** Modelled from the spec: [pypeliner.fstatcache] is not part of the
    sources at hand.  "invalidate(path) clears any memoized state for
    path". *)
Definition invalidate_cached_state (filename : string) : M unit :=
  modify (λ w, emit (EvInvalidate filename) (set_cache (delete filename) w)).

(** Modelled from the spec: "Stat cache entry: keyed by filename, holds
    last-observed (exists, mtime) snapshot ... Entries are created
    lazily on first query"; "at most one real stat syscall per path
    between invalidations". *)
Definition get_stat (filename : string) : M (option Z) := λ w,
  match cache w !! filename with
  | Some st => (Ok st, w)
  | None =>
      let st := os.stat_mtime filename w in
      (Ok st, set_cache (<[filename := st]>) w)
  end.

(** Modelled from the spec: "exists(path) -> bool". *)
Definition get_exists (filename : string) : M bool :=
  st ← get_stat filename; ret (bool_decide (is_Some st)).

(** Modelled from the spec: "createtime(path) -> Timestamp | Absent";
    the absent time is Python's [None], here [None]. *)
Definition get_createtime (filename : string) : M (option Z) :=
  get_stat filename.

End fstatcache.

(** ** Nodes and filename resolution *)

(** Modelled from the spec: [pypeliner.identifiers.Node] is not part of
    the sources at hand.  "Node: ordered sequence of (axis, value)
    pairs"; iterating a node yields the pairs in order.  An axis value is
    an integer or a string. *)
Inductive chunk :=
| ChunkInt (n : Z)
| ChunkStr (s : string).

Global Instance chunk_eq_dec : EqDecision chunk.
Proof. solve_decision. Defined.
Global Instance chunk_countable : Countable chunk.
Proof.
  refine (inj_countable'
    (λ c, match c with ChunkInt n => inl n | ChunkStr s => inr s end)
    (λ x, match x with inl n => ChunkInt n | inr s => ChunkStr s end) _).
  by intros [].
Defined.

Definition Node := list (string * chunk).

(** A key of the [fnames] table: the single axis value of a node with one
    axis, the tuple of axis values otherwise. *)
Inductive fkey :=
| KeyValue (c : chunk)
| KeyTuple (cs : list chunk).

Global Instance fkey_eq_dec : EqDecision fkey.
Proof. solve_decision. Defined.
Global Instance fkey_countable : Countable fkey.
Proof.
  refine (inj_countable'
    (λ k, match k with KeyValue c => inl c | KeyTuple cs => inr cs end)
    (λ x, match x with inl c => KeyValue c | inr cs => KeyTuple cs end) _).
  by intros [].
Defined.

(** [str(value)] of an axis value. *)
Definition str_chunk (c : chunk) : string :=
  match c with
  | ChunkInt n => pretty n
  | ChunkStr s => s
  end.

(** [sub in s] on strings. *)
Fixpoint contains (sub s : string) : bool :=
  String.prefix sub s ||
  match s with
  | EmptyString => false
  | String _ s' => contains sub s'
  end.

(** [dict(node)]: a later binding of an axis replaces an earlier one. *)
Definition dict_of_node (node : Node) : gmap string chunk :=
  foldl (λ d ac, <[ac.1 := ac.2]> d) ∅ node.

(** The result of a pure string computation.  [Unmodelled] marks a
    template that uses a part of the format mini-language left out of
    [str_format] below (conversions, format specifications, attribute
    and index access). *)
Inductive presult :=
| Value (s : string)
| Error (e : exn)
| Unmodelled.

Global Instance presult_eq_dec : EqDecision presult.
Proof. solve_decision. Defined.

Definition prepend (p : string) (r : presult) : presult :=
  match r with
  | Value s => Value (p +:+ s)
  | _ => r
  end.

Definition is_digit (c : ascii) : bool :=
  (48 <=? nat_of_ascii c)%nat && (nat_of_ascii c <=? 57)%nat.

Fixpoint all_digits (s : string) : bool :=
  match s with
  | EmptyString => true
  | String c s' => is_digit c && all_digits s'
  end.

(** The largest index of a 64-bit interpreter ([sys.maxsize]). *)
Definition PY_SSIZE_T_MAX : Z := 9223372036854775807.

(** The number that decimal digits denote, after [acc]. *)
Fixpoint digits_value (acc : Z) (s : string) : Z :=
  match s with
  | EmptyString => acc
  | String c s' => digits_value (10 * acc + (Z.of_nat (nat_of_ascii c) - 48)) s'
  end.

(** One replacement field [{field}] once its closing brace is read.  The
    call passes keyword arguments only, so a positional field (empty, or
    a number) indexes the empty argument tuple; a number beyond the
    largest index is refused before that. *)
Definition format_field (kw : gmap string chunk) (field : string) : presult :=
  if all_digits field then
    if PY_SSIZE_T_MAX <? digits_value 0 field
    then Error (ValueError "Too many decimal digits in format string")
    else Error (IndexError "tuple index out of range")
  else match kw !! field with
       | None => Error (KeyError field)
       | Some v => Value (str_chunk v)
       end.

(** [template.format] called with the keyword arguments [kw], left to
    right: [field] is [None] in literal
    text and [Some f] inside a replacement field whose name so far is
    [f]; the first error met is the one raised. *)
Fixpoint format_go (kw : gmap string chunk) (field : option string) (s : string) : presult :=
  match field, s with
  | None, EmptyString => Value ""
  | None, String "{" (String "{" rest) => prepend "{" (format_go kw None rest)
  | None, String "{" EmptyString =>
      Error (ValueError "Single '{' encountered in format string")
  | None, String "{" rest => format_go kw (Some "") rest
  | None, String "}" (String "}" rest) => prepend "}" (format_go kw None rest)
  | None, String "}" _ =>
      Error (ValueError "Single '}' encountered in format string")
  | None, String c rest => prepend (String c "") (format_go kw None rest)
  | Some f, EmptyString => Error (ValueError "unmatched '{' in format")
  | Some f, String "}" rest =>
      match format_field kw f with
      | Value v => prepend v (format_go kw None rest)
      | r => r
      end
  | Some f, String c rest =>
      if bool_decide (c ∈ ["!"; ":"; "."; "["; "{"]%char) then Unmodelled
      else format_go kw (Some (f +:+ String c "")) rest
  end.

Definition str_format (template : string) (kw : gmap string chunk) : presult :=
  format_go kw None template.

Fixpoint _check_template (template : string) (node : Node) : presult :=
  match node with
  | [] => Value ""
  | (axis, _) :: node' =>
      if negb (contains axis template) then
        Error (ValueError ("filename template " +:+ template +:+
                           " does not contain {" +:+ axis +:+ "}"))
      else _check_template template node'
  end.

(** Resolve a filename based on user provided information. *)
Definition resolve_user_filename (name : string) (node : Node)
    (fnames : option (gmap fkey string)) (template : option string) : presult :=
  let fname_key := (λ a, a.2) <$> node in
  match fnames with
  | Some fnames =>
      if bool_decide (length fname_key = 1%nat) then
        match fname_key with
        | k :: _ => Value (default name (fnames !! KeyValue k))
        | [] => Value name
        end
      else Value (default name (fnames !! KeyTuple fname_key))
  | None =>
      match template with
      | Some template =>
          match _check_template template node with
          | Value _ => str_format template (dict_of_node node)
          | r => r
          end
      | None =>
          match _check_template name node with
          | Value _ =>
              match str_format name (dict_of_node node) with
              | Error (KeyError k) =>
                  Error (ValueError ("template " +:+ name +:+ " contains " +:+ k))
              | r => r
              end
          | r => r
          end
      end
  end.

(** ** Python values as far as [obj_equal] and [pickle] look at them *)

(** The values ranged over are those that [pickle] can dump and whose
    [__eq__] does not raise: a value that makes [pickle.dump] or
    [__eq__] raise is outside this model.

    What [obj1.__eq__(obj2)] can do: the attribute is missing
    ([AttributeError]), the method declines ([NotImplemented]), or it
    answers. *)
Inductive eq_result :=
| EqAttributeError
| EqNotImplemented
| EqReturn (b : bool).

Class PyRuntime (obj : Type) := {
  py_None : obj;
  (** [obj1.__eq__(obj2)] *)
  dunder_eq : obj → obj → eq_result;
  (** [obj.__class__], classes being told apart by their qualified name *)
  dunder_class : obj → string;
  (** [obj.__dict__], [None] when the attribute is missing *)
  dunder_dict : obj → option (gmap string obj);
  (** [obj1 == obj2] *)
  op_eq : obj → obj → bool;
  (** [pickle.dumps] and [pickle.loads]; [None] when the bytes are not a
      pickle *)
  pickle_dumps : obj → string;
  pickle_loads : string → option obj;
  pickle_loads_dumps : ∀ v, pickle_loads (pickle_dumps v) = Some v
}.

Section obj_equal.
Context {obj : Type} {RT : PyRuntime obj}.

(** [d1 == d2] on dictionaries: the same keys, bound to values that are
    [==]. *)
Definition dict_eq (d1 d2 : gmap string obj) : bool :=
  bool_decide (dom d1 = dom d2) &&
  forallb (λ kv, match d2 !! kv.1 with
                 | Some v' => op_eq kv.2 v'
                 | None => false
                 end) (map_to_list d1).

Definition obj_equal (obj1 obj2 : obj) : bool :=
  match dunder_eq obj1 obj2 with
  | EqReturn equal => equal
  | EqNotImplemented | EqAttributeError =>
      if negb (bool_decide (dunder_class obj1 = dunder_class obj2)) then false
      else match dunder_dict obj1, dunder_dict obj2 with
           | Some d1, Some d2 => dict_eq d1 d2
           | _, _ => op_eq obj1 obj2
           end
  end.

(** The procedure as the specification words it, to be compared with
    [obj_equal]: "(a) if the value type defines its own equality
    operation and that operation does not decline to compare, use its
    result; (b) else if both sides share the same concrete type, compare
    their structural field-by-field content; (c) else fall back to
    primitive/raw equality".  The content of a value without attribute
    dictionary is the value itself. *)
Definition obj_equal_three_tier (obj1 obj2 : obj) : bool :=
  match dunder_eq obj1 obj2 with
  | EqReturn equal => equal
  | EqNotImplemented | EqAttributeError =>
      if bool_decide (dunder_class obj1 = dunder_class obj2) then
        match dunder_dict obj1, dunder_dict obj2 with
        | Some d1, Some d2 => dict_eq d1 d2
        | _, _ => op_eq obj1 obj2
        end
      else op_eq obj1 obj2
  end.

(** [pickle.load(f)] on the bytes of [f]. *)
Definition pickle_load (data : string) : M obj :=
  match pickle_loads data with
  | Some v => ret v
  | None => raise UnpicklingError
  end.

End obj_equal.

(** ** Resources *)

Module Dependency.

(** An input or output of the dependency graph for which timestamps are
    not checked.  [displayname] stands for the attribute [displayname] of
    [pypeliner.identifiers.Node], which is not part of the sources at
    hand: the operations that read it take it as a parameter.  The
    default [base_node] of the source is the empty node. *)
Record t := Make { name : string; node : Node }.

Definition is_temp (self : t) : bool := false.

Definition id (self : t) : string * Node := (name self, node self).

Definition exists_ (self : t) : M bool := ret true.

Definition build_displayname (displayname : Node → string) (self : t)
    (base_node : Node) : string :=
  let name := "/" +:+ Dependency.name self in
  let name :=
    if negb (bool_decide (displayname (node self) = ""))
    then "/" +:+ displayname (node self) +:+ name else name in
  let name :=
    if negb (bool_decide (displayname base_node = ""))
    then "/" +:+ displayname base_node +:+ name else name in
  name.

Definition cleanup (self : t) : M unit := ret tt.

End Dependency.

Module Resource.

(** [Resource.build_displayname_filename], given what
    [self.build_displayname(base_node)] answers for the class of [self]
    and [self.filename]; [' '.join([a, b])] is [a + ' ' + b]. *)
Definition build_displayname_filename (displayname filename : string) : string :=
  if negb (bool_decide (displayname = filename))
  then displayname +:+ " " +:+ filename
  else displayname.

End Resource.

Module UserResource.

Record t := Make { name : string; node : Node; filename : string }.

Definition init (name : string) (node : Node) (filename : string) : M t :=
  let self := Make name node filename in
  fstatcache.invalidate_cached_state (UserResource.filename self);;
  ret self.

Definition build_displayname (self : t) : string := filename self.

(** [Resource.build_displayname_filename] as a user resource inherits
    it: [build_displayname] is the overriding one. *)
Definition build_displayname_filename (self : t) : string :=
  Resource.build_displayname_filename (build_displayname self) (filename self).

Definition exists_ (self : t) : M bool :=
  fstatcache.get_exists (filename self).

Definition createtime (self : t) : M (option Z) :=
  fstatcache.get_createtime (filename self).

Definition touch (self : t) : M unit :=
  e ← exists_ self;
  if negb e then raise (PyException "cannot touch missing user output")
  else
    fstatcache.invalidate_cached_state (filename self);;
    helpers.touch (filename self).

Definition finalize (self : t) (write_filename : string) : M unit :=
  try_except
    (fstatcache.invalidate_cached_state (filename self);;
     os.rename write_filename (filename self))
    (λ e, if is_OSError e
          then Some (raise (OutputMissingException write_filename))
          else None).

End UserResource.

Module TempFileResource.

Record t := Make {
  name : string;
  node : Node;
  filename : string;
  is_temp : bool;
  placeholder_filename : string
}.

Definition init (name : string) (node : Node) (filename : string) : M t :=
  let self := Make name node filename true (filename +:+ "._placeholder") in
  fstatcache.invalidate_cached_state (TempFileResource.filename self);;
  fstatcache.invalidate_cached_state (placeholder_filename self);;
  ret self.

Definition _save_createtime (self : t) : M unit :=
  fstatcache.invalidate_cached_state (placeholder_filename self);;
  helpers.saferemove (placeholder_filename self);;
  helpers.touch (placeholder_filename self);;
  copystat (filename self) (placeholder_filename self).

Definition exists_ (self : t) : M bool :=
  fstatcache.get_exists (filename self).

Definition createtime (self : t) : M (option Z) :=
  e ← fstatcache.get_exists (filename self);
  if (e : bool) then fstatcache.get_createtime (filename self)
  else
    e' ← fstatcache.get_exists (placeholder_filename self);
    if (e' : bool) then fstatcache.get_createtime (placeholder_filename self)
    else ret None.

Definition touch (self : t) : M unit :=
  e ← exists_ self;
  if (e : bool) then
    fstatcache.invalidate_cached_state (filename self);;
    helpers.touch (filename self);;
    _save_createtime self
  else
    fstatcache.invalidate_cached_state (placeholder_filename self);;
    helpers.touch (placeholder_filename self).

Definition finalize (self : t) (write_filename : string) : M unit :=
  try_except
    (fstatcache.invalidate_cached_state (filename self);;
     os.rename write_filename (filename self))
    (λ e, if is_OSError e
          then Some (raise (OutputMissingException write_filename))
          else None);;
  _save_createtime self.

Definition cleanup (self : t) : M unit :=
  e ← exists_ self;
  if (e : bool) then
    modify (emit (EvLog "resources" ("removing " +:+ filename self)));;
    fstatcache.invalidate_cached_state (filename self);;
    os.remove (filename self)
  else ret tt.

(** [build_displayname] is inherited from [Dependency]. *)
Definition build_displayname (displayname : Node → string) (self : t)
    (base_node : Node) : string :=
  Dependency.build_displayname displayname
    (Dependency.Make (name self) (node self)) base_node.

Definition build_displayname_filename (displayname : Node → string) (self : t)
    (base_node : Node) : string :=
  Resource.build_displayname_filename
    (build_displayname displayname self base_node) (filename self).

End TempFileResource.

Module TempObjResource.

Record t := Make {
  name : string;
  node : Node;
  filename : string;
  is_input : bool;
  is_temp : bool
}.

(** [('._i', '._o')[is_input]]: a tuple indexed by a boolean, [False]
    being index 0 and [True] index 1. *)
Definition init (name : string) (node : Node) (filename : string)
    (is_input : bool) : M t :=
  let suffix := default "" (["._i"; "._o"] !! (if is_input then 1 else 0)%nat) in
  let self := Make name node (filename +:+ suffix) is_input true in
  fstatcache.invalidate_cached_state (TempObjResource.filename self);;
  ret self.

Definition exists_ (self : t) : M bool :=
  fstatcache.get_exists (filename self).

Definition createtime (self : t) : M (option Z) :=
  fstatcache.get_createtime (filename self).

Definition touch (self : t) : M unit :=
  e ← exists_ self;
  if negb e then raise (PyException "cannot touch missing object")
  else
    fstatcache.invalidate_cached_state (filename self);;
    helpers.touch (filename self).

End TempObjResource.

Module TempObjManager.

Record t := Make {
  name : string;
  node : Node;
  input : TempObjResource.t;
  output : TempObjResource.t
}.

Definition init (name : string) (node : Node) (filename : string) : M t :=
  input ← TempObjResource.init name node filename true;
  output ← TempObjResource.init name node filename false;
  ret (Make name node input output).

Section with_runtime.
Context {pyobj : Type} {RT : PyRuntime pyobj}.

(** The handler catches every [IOError]; its body is
    [if e.errno == 2: pass] and nothing else, so in either case control
    reaches the end of the function, which returns [None]. *)
Definition get_obj (self : t) : M pyobj :=
  try_except
    (data ← open_read (TempObjResource.filename (input self));
     pickle_load data)
    (λ e, match e with
          | IOError errno _ =>
              Some ((if bool_decide (errno = 2) then ret tt else ret tt);;
                    ret py_None)
          | _ => None
          end).

Definition finalize (self : t) (obj : pyobj) : M unit :=
  open_write (TempObjResource.filename (output self)) (pickle_dumps obj);;
  e ← TempObjResource.exists_ (input self);
  differs ← (if negb e then ret true
             else stored ← get_obj self; ret (negb (obj_equal obj stored)));
  (if differs : bool
   then open_write (TempObjResource.filename (input self)) (pickle_dumps obj)
   else ret tt);;
  fstatcache.invalidate_cached_state (TempObjResource.filename (input self));;
  fstatcache.invalidate_cached_state (TempObjResource.filename (output self)).

End with_runtime.

End TempObjManager.

(** ** A concrete universe of Python 2 values

    Enough of Python 2 to run the operations above on actual values:
    [None], integers, strings, and instances of user classes whose
    attributes hold such atoms.  In Python 2 neither [object], nor [int],
    nor [NoneType] has an [__eq__] attribute, while [str] has one that
    declines on a non-string.  A class is described by its name, by what
    its [__eq__] does, and by whether it declares [__slots__] (its
    instances then have no [__dict__]).  The values compared by
    [obj_equal] are a new object and one read back from a pickle, hence
    never the same object: where Python compares identities, the answer
    is [False]. *)
Module Py2.

Inductive atom :=
| ANone
| AInt (n : Z)
| AStr (s : string).

Inductive eq_method :=
| EqUndefined                (* the class defines no __eq__ *)
| EqDeclines                 (* __eq__ returns NotImplemented *)
| EqAlways (b : bool)        (* __eq__ returns the constant b *)
| EqSameAttrs.               (* __eq__ compares the attributes of two
                                instances of the class, declines otherwise *)

Record klass := Klass { kname : string; keq : eq_method; kslots : bool }.

Inductive value :=
| Atom (a : atom)
| Inst (k : klass) (attrs : gmap string atom).

Global Instance atom_eq_dec : EqDecision atom.
Proof. solve_decision. Defined.
Global Instance eq_method_eq_dec : EqDecision eq_method.
Proof. solve_decision. Defined.
Global Instance klass_eq_dec : EqDecision klass.
Proof. solve_decision. Defined.
Global Instance value_eq_dec : EqDecision value.
Proof. solve_decision. Defined.

Global Instance atom_countable : Countable atom.
Proof.
  refine (inj_countable'
    (λ a, match a with ANone => inl () | AInt n => inr (inl n) | AStr s => inr (inr s) end)
    (λ x, match x with inl _ => ANone | inr (inl n) => AInt n | inr (inr s) => AStr s end) _).
  by intros [].
Defined.
Global Instance eq_method_countable : Countable eq_method.
Proof.
  refine (inj_countable'
    (λ m, match m with
          | EqUndefined => inl 0%nat | EqDeclines => inl 1%nat
          | EqSameAttrs => inl 2%nat | EqAlways b => inr b
          end)
    (λ x, match x with
          | inl 0%nat => EqUndefined | inl 1%nat => EqDeclines
          | inl _ => EqSameAttrs | inr b => EqAlways b
          end) _).
  by intros [].
Defined.
Global Instance klass_countable : Countable klass.
Proof.
  refine (inj_countable'
    (λ k, (kname k, keq k, kslots k))
    (λ x, Klass x.1.1 x.1.2 x.2) _).
  by intros [].
Defined.
Global Instance value_countable : Countable value.
Proof.
  refine (inj_countable'
    (λ v, match v with Atom a => inl a | Inst k attrs => inr (k, attrs) end)
    (λ x, match x with inl a => Atom a | inr (k, attrs) => Inst k attrs end) _).
  by intros [].
Defined.

Definition class_of (v : value) : string :=
  match v with
  | Atom ANone => "NoneType"
  | Atom (AInt _) => "int"
  | Atom (AStr _) => "str"
  | Inst k _ => kname k
  end.

(** [v1.__eq__(v2)] *)
Definition eq_of (v1 v2 : value) : eq_result :=
  match v1 with
  | Atom ANone | Atom (AInt _) => EqAttributeError
  | Atom (AStr s) =>
      match v2 with
      | Atom (AStr s') => EqReturn (bool_decide (s = s'))
      | _ => EqNotImplemented
      end
  | Inst k attrs =>
      match keq k with
      | EqUndefined => EqAttributeError
      | EqDeclines => EqNotImplemented
      | EqAlways b => EqReturn b
      | EqSameAttrs =>
          match v2 with
          | Inst k' attrs' =>
              if bool_decide (k = k') then EqReturn (bool_decide (attrs = attrs'))
              else EqNotImplemented
          | _ => EqNotImplemented
          end
      end
  end.

Definition dict_of (v : value) : option (gmap string value) :=
  match v with
  | Atom _ => None
  | Inst k attrs => if kslots k then None else Some (Atom <$> attrs)
  end.

(** [v1 == v2]: the answer of [v1.__eq__(v2)], else that of the
    reflected [v2.__eq__(v1)], else the default comparison, which is by
    value on atoms of one type and by identity otherwise. *)
Definition eqop (v1 v2 : value) : bool :=
  match eq_of v1 v2 with
  | EqReturn b => b
  | _ =>
      match eq_of v2 v1 with
      | EqReturn b => b
      | _ =>
          match v1, v2 with
          | Atom a1, Atom a2 => bool_decide (a1 = a2)
          | _, _ => false
          end
      end
  end.

(** A stand-in for the pickle format: the binary digits of the code of
    the value. *)
Fixpoint digits (p : positive) : string :=
  match p with
  | xH => ""
  | xO p' => String "0" (digits p')
  | xI p' => String "1" (digits p')
  end.

Fixpoint undigits (s : string) : option positive :=
  match s with
  | EmptyString => Some xH
  | String "0" s' => xO <$> undigits s'
  | String "1" s' => xI <$> undigits s'
  | String _ _ => None
  end.

Definition dumps (v : value) : string := digits (encode v).
Definition loads (s : string) : option value := undigits s ≫= decode.

Global Program Instance runtime : PyRuntime value := {|
  py_None := Atom ANone;
  dunder_eq := eq_of;
  dunder_class := class_of;
  dunder_dict := dict_of;
  op_eq := eqop;
  pickle_dumps := dumps;
  pickle_loads := loads
|}.
Next Obligation.
  intros v. unfold loads, dumps.
  assert (Hd : ∀ p, undigits (digits p) = Some p).
  { induction p as [p IH|p IH|]; simpl; rewrite ?IH; done. }
  rewrite Hd. simpl. apply decode_encode.
Qed.

End Py2.

(** ** Vocabulary of the statements *)

(** The value an operation returns, and the world it leaves. *)
Definition result {A} (m : M A) (w : world) : outcome A := (m w).1.
Definition after {A} (m : M A) (w : world) : world := (m w).2.

(** What the stat cache answers for a path: its entry when it has one,
    the filesystem otherwise. *)
Definition observed (w : world) (path : string) : option Z :=
  match cache w !! path with
  | Some st => st
  | None => os.stat_mtime path w
  end.

(** The world once the cache has answered for a path. *)
Definition memo (path : string) (w : world) : world :=
  set_cache (<[path := observed w path]>) w.

(** The cache entry of a path, if any, agrees with the filesystem. *)
Definition coherent (w : world) (path : string) : Prop :=
  observed w path = os.stat_mtime path w.

(** The events a run appended to the trace of [w]. *)
Definition events_since (w w' : world) : list event :=
  drop (length (trace w)) (trace w').

(** A temporary file resource as its constructor builds it. *)
Definition well_formed (self : TempFileResource.t) : Prop :=
  TempFileResource.placeholder_filename self =
  TempFileResource.filename self +:+ "._placeholder".

(** The state a temporary file resource is in once [touch] or [finalize]
    has returned: the placeholder is on disk and the cache holds nothing
    about it; about the primary file the cache holds nothing while the
    file is on disk, or it holds that the file is absent. *)
Definition settled (self : TempFileResource.t) (w : world) : Prop :=
  let f := TempFileResource.filename self in
  let ph := TempFileResource.placeholder_filename self in
  is_Some (fs w !! ph) ∧ cache w !! ph = None ∧
  ((cache w !! f = None ∧ is_Some (fs w !! f)) ∨ cache w !! f = Some None).

Section vocabulary.
Context {obj : Type} {RT : PyRuntime obj}.

(** Whether [finalize] finds the value to differ from the accepted one. *)
Definition differs_from_input (self : TempObjManager.t) (o : obj) (w : world) : bool :=
  match fs w !! TempObjResource.filename (TempObjManager.input self) with
  | None => true
  | Some stored =>
      match pickle_loads (content stored) with
      | Some v => negb (obj_equal o v)
      | None => true
      end
  end.


(** [a.__eq__(b)] gave no answer: the attribute is missing or the
    method declined. *)
Definition no_answer (a b : obj) : Prop :=
  dunder_eq a b = EqAttributeError ∨ dunder_eq a b = EqNotImplemented.

End vocabulary.

(** A string without braces: literal text for [str.format]. *)
Fixpoint no_braces (s : string) : bool :=
  match s with
  | EmptyString => true
  | String c s' =>
      negb (bool_decide (c = "{"%char)) && negb (bool_decide (c = "}"%char)) &&
      no_braces s'
  end.


(** A template inside the part of the format mini-language that
    [str_format] models: no replacement field holds a character that
    qualifies it (conversion, format specification, attribute, index,
    nested brace).  [in_field] tells whether the scan is inside a
    field. *)
Fixpoint plain_template (in_field : bool) (s : string) : bool :=
  match in_field, s with
  | _, EmptyString => true
  | false, String "{" (String "{" rest) => plain_template false rest
  | false, String "{" rest => plain_template true rest
  | false, String "}" (String "}" rest) => plain_template false rest
  | false, String _ rest => plain_template false rest
  | true, String "}" rest => plain_template false rest
  | true, String c rest =>
      negb (bool_decide (c ∈ ["!"; ":"; "."; "["; "{"]%char)) &&
      plain_template true rest
  end.

(** The key [resolve_user_filename] looks up in the table [fnames]. *)
Definition fname_key (node : Node) : fkey :=
  match node with
  | [(_, c)] => KeyValue c
  | _ => KeyTuple (node.*2)
  end.

(** The exceptions of [str.format] on a template. *)
Definition is_format_error (e : exn) : bool :=
  match e with
  | ValueError _ | KeyError _ | IndexError _ => true
  | _ => false
  end.

(** The non-empty display names of the base node and of the node, in
    that order, then the name: the parts of a display name. *)
Definition displayname_parts (displayname : Node → string) (self : Dependency.t)
    (base_node : Node) : list string :=
  filter (λ s, s ≠ "") [displayname base_node; displayname (Dependency.node self)]
  ++ [Dependency.name self].

(** ** Data of the examples *)

(** A temporary file resource and a world with its primary file and a
    staged output, nothing cached, nothing denied. *)
Definition tmp_example : TempFileResource.t :=
  TempFileResource.Make "align" [] "tmp/align" true "tmp/align._placeholder".
Definition tmp_world : world :=
  World {[ "tmp/align" := File "old" 3; "tmp/staged" := File "new" 7 ]} ∅ ∅ 10 [].

Definition empty_world : world := World ∅ ∅ ∅ 0 [].

(** The manager that [TempObjManager("obj", Node(), "tmp/obj")] builds. *)
Definition obj_manager : TempObjManager.t :=
  TempObjManager.Make "obj" []
    (TempObjResource.Make "obj" [] "tmp/obj._o" true true)
    (TempObjResource.Make "obj" [] "tmp/obj._i" false true).

(** Worlds for the manager [obj_manager]: the accepted value is the
    integer 7; it is [None]; the slot exists but may not be opened. *)
Definition world_with_input (v : Py2.value) : world :=
  World {[ "tmp/obj._o" := File (pickle_dumps v) 4 ]} ∅ ∅ 9 [].
Definition world_input_denied : world :=
  World {[ "tmp/obj._o" := File (pickle_dumps (Py2.Atom (Py2.AInt 7))) 4 ]}
        {[ "tmp/obj._o" ]} ∅ 9 [].

(** A world in which the primary file of [tmp_example] is gone and its
    placeholder is left. *)
Definition tmp_world_cleaned : world :=
  World {[ "tmp/align._placeholder" := File "" 3 ]} ∅ ∅ 10 [].

(** A user resource, and a world with its staged output in which the
    cache still holds that the final file is absent. *)
Definition user_example : UserResource.t :=
  UserResource.Make "result" [] "out/result.txt".
Definition user_world : world :=
  World {[ "tmp/result.staged" := File "x" 7 ]} ∅
        {[ "out/result.txt" := None ]} 10 [].

(** Worlds for [obj_manager] with no slot file: the cache still holds
    that the input slot exists; the input slot may not be opened. *)
Definition world_stale_input : world :=
  World ∅ ∅ {[ "tmp/obj._o" := Some 4 ]} 9 [].
Definition world_input_unwritable : world :=
  World ∅ {[ "tmp/obj._o" ]} ∅ 9 [].

(** Two classes: [A] defines no [__eq__], [B] defines one that always
    answers [True].  [A() == B()] is [True] through the reflected
    [B.__eq__]. *)
Definition class_A : Py2.klass := Py2.Klass "A" Py2.EqUndefined false.
Definition class_B : Py2.klass := Py2.Klass "B" (Py2.EqAlways true) false.

(** * Properties *)

#[local] Set Warnings "-clear-no-such-hyp".

Ltac run :=
  unfold result, after,
    UserResource.init, UserResource.finalize, UserResource.exists_,
    UserResource.createtime,
    TempFileResource.init, TempFileResource.finalize, TempFileResource.exists_,
    TempFileResource.createtime, TempFileResource.touch,
    TempFileResource.cleanup, TempFileResource._save_createtime,
    TempObjResource.init, TempObjResource.exists_, TempObjResource.createtime,
    TempObjManager.init,
    fstatcache.invalidate_cached_state, os.rename, os.remove,
    helpers.touch, helpers.saferemove, copystat, open_read, open_write,
    try_except, modify, raise, ret, mbind, M_bind, bind in *;
  simpl in *.

Lemma append_empty_r (s : string) : s +:+ "" = s.
Proof.
  induction s as [|c s IH]; [done|].
  change (String c (s +:+ "") = String c s). by rewrite IH.
Qed.

Lemma suffix_neq (s t : string) : t ≠ "" → s +:+ t ≠ s.
Proof.
  intros Ht Heq. apply Ht.
  apply (inj (String.append s)). by rewrite Heq, append_empty_r.
Qed.

Lemma world_eta (w : world) :
  World (fs w) (denied w) (cache w) (now w) (trace w) = w.
Proof. by destruct w. Qed.

Section stat_cache.
Implicit Types (w : world) (p q : string).

Lemma get_stat_run p w :
  fstatcache.get_stat p w = (Ok (observed w p), memo p w).
Proof.
  unfold fstatcache.get_stat, memo, observed.
  destruct (cache w !! p) as [st|] eqn:Hc; [|done].
  unfold set_cache. rewrite insert_id by done. by rewrite world_eta.
Qed.

Lemma get_exists_run p w :
  fstatcache.get_exists p w = (Ok (bool_decide (is_Some (observed w p))), memo p w).
Proof.
  unfold fstatcache.get_exists, mbind, M_bind, bind. by rewrite get_stat_run.
Qed.

Lemma get_createtime_run p w :
  fstatcache.get_createtime p w = (Ok (observed w p), memo p w).
Proof. apply get_stat_run. Qed.

Lemma observed_memo p q w : observed (memo p w) q = observed w q.
Proof.
  unfold memo, observed at 1. simpl.
  destruct (decide (p = q)) as [->|Hne].
  - by rewrite lookup_insert_eq.
  - rewrite lookup_insert_ne by done. done.
Qed.

Lemma observed_fresh p w :
  cache w !! p = None → observed w p = mtime <$> fs w !! p.
Proof. unfold observed. by intros ->. Qed.

End stat_cache.

Section primitives.
Implicit Types (w : world) (p q : string).

Lemma bind_run {A B} (m : M A) (k : A → M B) w :
  (m ≫= k) w =
  match m w with
  | (Ok a, w') => k a w'
  | (Raise e, w') => (Raise e, w')
  end.
Proof. done. Qed.

Lemma touch_run p w :
  p ∉ denied w →
  helpers.touch p w =
    (Ok (), emit (EvTouch p)
              (tick (set_fs (<[p := File (default "" (content <$> fs w !! p)) (now w)]>) w))).
Proof. intros Hp. unfold helpers.touch. by rewrite bool_decide_eq_false_2. Qed.

Lemma saferemove_run p w :
  p ∉ denied w →
  helpers.saferemove p w =
    (Ok (), match fs w !! p with
            | Some _ => emit (EvRemove p) (set_fs (delete p) w)
            | None => w
            end).
Proof.
  intros Hp. unfold helpers.saferemove, try_except, os.remove.
  rewrite bool_decide_eq_false_2 by done.
  by destruct (fs w !! p).
Qed.

End primitives.

Lemma events_since_app (w w' : world) (evs : list event) :
  trace w' = trace w ++ evs → events_since w w' = evs.
Proof. unfold events_since. intros ->. by rewrite drop_app_length. Qed.

(** ** Filename resolution *)

(** C5.  The template [{sample}/{chunk}.txt] with a node that binds
    [sample] only: given as [template], the [KeyError] of [str.format]
    comes out as it is, where a [ValueError] naming [chunk] is expected;
    given as [name], the same error is turned into that [ValueError]. *)
Theorem template_key_error_leaks :
  resolve_user_filename "out" [("sample", ChunkStr "s1")] None
    (Some "{sample}/{chunk}.txt") = Error (KeyError "chunk") ∧
  resolve_user_filename "{sample}/{chunk}.txt" [("sample", ChunkStr "s1")] None None =
    Error (ValueError "template {sample}/{chunk}.txt contains chunk").
Proof. split; vm_compute; reflexivity. Qed.

(** With [name] as the template a [KeyError] of [str.format] becomes a
    [ValueError]; with [template] it is raised as it is. *)
Lemma name_branch_wraps_key_error (name : string) (node : Node) (k : string) :
  _check_template name node = Value "" →
  str_format name (dict_of_node node) = Error (KeyError k) →
  resolve_user_filename name node None None =
    Error (ValueError ("template " +:+ name +:+ " contains " +:+ k)).
Proof. unfold resolve_user_filename. by intros -> ->. Qed.

Lemma template_branch_keeps_key_error (name template : string) (node : Node)
    (k : string) :
  _check_template template node = Value "" →
  str_format template (dict_of_node node) = Error (KeyError k) →
  resolve_user_filename name node None (Some template) = Error (KeyError k).
Proof. unfold resolve_user_filename. by intros -> ->. Qed.

(** [_check_template] raises for the first axis whose name does not occur
    in the template, and names it. *)
Lemma check_template_spec (template : string) (node : Node) :
  match _check_template template node with
  | Value _ => Forall (λ ac, contains ac.1 template = true) node
  | Error e =>
      ∃ axis, axis ∈ node.*1 ∧ contains axis template = false ∧
        e = ValueError ("filename template " +:+ template +:+
                        " does not contain {" +:+ axis +:+ "}")
  | Unmodelled => False
  end.
Proof.
  induction node as [|[axis c] node IH]; simpl; [done|].
  destruct (contains axis template) eqn:Hc; simpl.
  - destruct (_check_template template node); try done.
    + by constructor.
    + destruct IH as (a & Ha & Hn & ->). exists a. split_and!; try done.
      by apply list_elem_of_further.
  - exists axis. split_and!; try done. apply list_elem_of_here.
Qed.

(** The check looks for the name of the axis anywhere in the template,
    not for the placeholder. *)
Lemma check_template_accepts_plain_text :
  resolve_user_filename "out" [("sample", ChunkStr "s1")] None (Some "samples.txt")
    = Value "samples.txt".
Proof. vm_compute. reflexivity. Qed.

(** The table of filenames: a tuple key, a single-value key, and the
    default. *)
Lemma table_lookup_examples :
  resolve_user_filename "out" [("sample", ChunkStr "s1"); ("chunk", ChunkStr "c1")]
    (Some {[ KeyTuple [ChunkStr "s1"; ChunkStr "c1"] := "out1.txt" ]}) None
    = Value "out1.txt" ∧
  resolve_user_filename "out" [("sample", ChunkStr "s1")]
    (Some {[ KeyValue (ChunkStr "s1") := "out1.txt" ]}) None = Value "out1.txt" ∧
  resolve_user_filename "out" [("sample", ChunkStr "s2")]
    (Some {[ KeyValue (ChunkStr "s1") := "out1.txt" ]}) None = Value "out".
Proof. split_and!; vm_compute; reflexivity. Qed.

(** ** Constructors and sidecar names *)

(** C7, as the code has it.  The placeholder of a temporary file is the
    filename followed by [._placeholder]; the two slots of a temporary
    object are the filename followed by [._i] and the filename followed
    by [._o], one each. *)
Theorem sidecar_filenames (w : world) (name : string) (node : Node) (filename : string) :
  (∃ self, result (TempFileResource.init name node filename) w = Ok self ∧
           TempFileResource.filename self = filename ∧
           TempFileResource.placeholder_filename self = filename +:+ "._placeholder") ∧
  (∀ is_input, ∃ self,
     result (TempObjResource.init name node filename is_input) w = Ok self ∧
     (TempObjResource.filename self = filename +:+ "._i" ∨
      TempObjResource.filename self = filename +:+ "._o")) ∧
  (∃ self, result (TempObjManager.init name node filename) w = Ok self ∧
     let inp := TempObjResource.filename (TempObjManager.input self) in
     let out := TempObjResource.filename (TempObjManager.output self) in
     inp ≠ out ∧
     ((inp = filename +:+ "._i" ∧ out = filename +:+ "._o") ∨
      (inp = filename +:+ "._o" ∧ out = filename +:+ "._i"))).
Proof.
  split_and!.
  - eexists. split; [reflexivity|]. done.
  - intros [|]; eexists; (split; [reflexivity|]); simpl; auto.
  - eexists. split; [reflexivity|]. simpl. split; [|auto].
    intros Heq. by apply (inj (String.append filename)) in Heq.
Qed.

(** C7 fails on the code: the placeholder of [tmp/align] is not
    [tmp/align.placeholder], and the manager of [tmp/obj] has its input
    slot at [tmp/obj._o] and its output slot at [tmp/obj._i]. *)
Lemma sidecar_suffixes_differ :
  (result (TempFileResource.init "align" [] "tmp/align") empty_world =
     Ok (TempFileResource.Make "align" [] "tmp/align" true "tmp/align._placeholder") ∧
   "tmp/align._placeholder" ≠ "tmp/align" +:+ ".placeholder") ∧
  (result (TempObjManager.init "obj" [] "tmp/obj") empty_world = Ok obj_manager ∧
   TempObjResource.filename (TempObjManager.input obj_manager) = "tmp/obj" +:+ "._o" ∧
   TempObjResource.filename (TempObjManager.output obj_manager) = "tmp/obj" +:+ "._i" ∧
   "tmp/obj" +:+ "._o" ≠ "tmp/obj" +:+ "._i").
Proof. split_and!; done. Qed.

Lemma createtime_observed (self : TempFileResource.t) (w : world) :
  result (TempFileResource.createtime self) w =
    Ok (match observed w (TempFileResource.filename self) with
        | Some t => Some t
        | None => observed w (TempFileResource.placeholder_filename self)
        end).
Proof.
  unfold result, TempFileResource.createtime, mbind, M_bind, bind.
  rewrite get_exists_run.
  destruct (observed w (TempFileResource.filename self)) as [t|] eqn:Hf; simpl.
  - by rewrite get_createtime_run, observed_memo, Hf.
  - rewrite get_exists_run, observed_memo.
    destruct (observed w (TempFileResource.placeholder_filename self)) as [t|] eqn:Hp;
      simpl; [|done].
    by rewrite get_createtime_run, !observed_memo, Hp.
Qed.

Lemma exists_observed (p : string) (w : world) :
  result (fstatcache.get_exists p) w = Ok (bool_decide (is_Some (observed w p))).
Proof. unfold result. by rewrite get_exists_run. Qed.

Lemma createtime_cache_observed (p : string) (w : world) :
  result (fstatcache.get_createtime p) w = Ok (observed w p).
Proof. unfold result. by rewrite get_createtime_run. Qed.

(** C9. Each constructor invalidates the cache entry of every filename it
    tracks and changes no file, so that, whatever the cache held before,
    the first [exists] and [createtime] of the new resource answer from
    the filesystem. *)
Theorem constructors_invalidate (w : world) (name : string) (node : Node)
    (filename : string) :
  (let self := UserResource.Make name node filename in
   let w1 := after (UserResource.init name node filename) w in
   result (UserResource.init name node filename) w = Ok self ∧
   events_since w w1 = [EvInvalidate filename] ∧
   fs w1 = fs w ∧
   result (UserResource.exists_ self) w1 = Ok (bool_decide (is_Some (fs w !! filename))) ∧
   result (UserResource.createtime self) w1 = Ok (mtime <$> fs w !! filename)) ∧
  (let placeholder := filename +:+ "._placeholder" in
   let self := TempFileResource.Make name node filename true placeholder in
   let w1 := after (TempFileResource.init name node filename) w in
   result (TempFileResource.init name node filename) w = Ok self ∧
   events_since w w1 = [EvInvalidate filename; EvInvalidate placeholder] ∧
   fs w1 = fs w ∧
   result (TempFileResource.exists_ self) w1 = Ok (bool_decide (is_Some (fs w !! filename))) ∧
   result (TempFileResource.createtime self) w1 =
     Ok (match fs w !! filename with
         | Some primary => Some (mtime primary)
         | None => mtime <$> fs w !! placeholder
         end)) ∧
  (∀ is_input : bool,
   let w1 := after (TempObjResource.init name node filename is_input) w in
   ∃ self,
   result (TempObjResource.init name node filename is_input) w = Ok self ∧
   events_since w w1 = [EvInvalidate (TempObjResource.filename self)] ∧
   fs w1 = fs w ∧
   result (TempObjResource.exists_ self) w1 =
     Ok (bool_decide (is_Some (fs w !! TempObjResource.filename self))) ∧
   result (TempObjResource.createtime self) w1 =
     Ok (mtime <$> fs w !! TempObjResource.filename self)).
Proof.
  assert (Hne : filename +:+ "._placeholder" ≠ filename) by by apply suffix_neq.
  split_and!.
  - run. unfold events_since. simpl. rewrite drop_app_length.
    rewrite get_exists_run, get_createtime_run. simpl.
    unfold observed, os.stat_mtime. simpl. rewrite lookup_delete_eq.
    split_and!; try done. by destruct (fs w !! filename).
  - unfold result at 1, after.
    unfold TempFileResource.init, mbind, M_bind, bind,
      fstatcache.invalidate_cached_state, modify, ret. simpl.
    unfold events_since. simpl. rewrite <- app_assoc, drop_app_length.
    rewrite createtime_observed. unfold TempFileResource.exists_.
    rewrite exists_observed. simpl.
    unfold observed, os.stat_mtime. simpl.
    rewrite !(lookup_delete_ne _ (filename +:+ "._placeholder") filename) by done.
    rewrite !lookup_delete_eq.
    split_and!; try done; by destruct (fs w !! filename).
  - intros is_input.
    exists (TempObjResource.Make name node
              (filename +:+ (if is_input then "._o" else "._i")) is_input true).
    destruct is_input; run; unfold events_since; simpl; rewrite drop_app_length;
      rewrite get_exists_run, get_createtime_run; simpl;
      unfold observed, os.stat_mtime; simpl; rewrite lookup_delete_eq;
      (split_and!; try done); by destruct (fs w !! _).
Qed.

(** ** User resources *)

(** C1. [UserResource.finalize] invalidates the cache entry of the final
    filename, then renames the staged file onto it.  It returns only when
    the staged file was there and is now the final file; it raises only
    [OutputMissingException] of the staged path, and then the files are
    what they were.  A missing staged file makes it raise. *)
Theorem finalize_commits_or_keeps (self : UserResource.t) (write_filename : string)
    (w : world) :
  let f := UserResource.filename self in
  let w' := after (UserResource.finalize self write_filename) w in
  cache w' = delete f (cache w) ∧
  match result (UserResource.finalize self write_filename) w with
  | Ok _ =>
      ∃ staged, fs w !! write_filename = Some staged ∧
        fs w' = <[f := staged]> (delete write_filename (fs w)) ∧
        events_since w w' = [EvInvalidate f; EvRename write_filename f]
  | Raise e =>
      e = OutputMissingException write_filename ∧
      fs w' = fs w ∧
      events_since w w' = [EvInvalidate f]
  end ∧
  (fs w !! write_filename = None →
   result (UserResource.finalize self write_filename) w =
     Raise (OutputMissingException write_filename)) ∧
  (is_Some (fs w !! write_filename) →
   write_filename ∉ denied w → f ∉ denied w →
   result (UserResource.finalize self write_filename) w = Ok ()).
Proof.
  intros f w'. unfold w', result, after, events_since, UserResource.finalize.
  fold f. unfold try_except, mbind, M_bind, bind, os.rename,
    fstatcache.invalidate_cached_state, modify, raise. simpl.
  destruct (bool_decide (write_filename ∈ denied w)) eqn:Hd1; simpl.
  { rewrite drop_app_length. split_and!; try done.
    - intros _ Hn. by apply bool_decide_eq_true in Hd1. }
  destruct (bool_decide (f ∈ denied w)) eqn:Hd2; simpl.
  { rewrite drop_app_length. split_and!; try done.
    - intros _ _ Hn. by apply bool_decide_eq_true in Hd2. }
  destruct (fs w !! write_filename) as [staged|] eqn:Hs; simpl.
  - rewrite <- app_assoc, drop_app_length. split_and!; try done.
    by exists staged.
  - rewrite drop_app_length. split_and!; try done.
Qed.


(** ** Temporary files *)

(** C4. [TempFileResource.createtime] answers the time of the primary
    file when the primary file exists, else the time of the placeholder
    when the placeholder exists, else [None]; existence and times are
    those the stat cache reports, which are those of the filesystem when
    the cache is coherent for the two paths. *)
Theorem createtime_falls_back (self : TempFileResource.t) (w : world) :
  let f := TempFileResource.filename self in
  let ph := TempFileResource.placeholder_filename self in
  result (TempFileResource.createtime self) w =
    (if decide (result (fstatcache.get_exists f) w = Ok true)
     then result (fstatcache.get_createtime f) w
     else if decide (result (fstatcache.get_exists ph) w = Ok true)
     then result (fstatcache.get_createtime ph) w
     else Ok None) ∧
  (∀ p, result (fstatcache.get_exists p) w = Ok true →
        ∃ t, result (fstatcache.get_createtime p) w = Ok (Some t)) ∧
  (coherent w f → coherent w ph →
   result (TempFileResource.createtime self) w =
     Ok (match fs w !! f with
         | Some primary => Some (mtime primary)
         | None =>
             match fs w !! ph with
             | Some placeholder => Some (mtime placeholder)
             | None => None
             end
         end)).
Proof.
  intros f ph. rewrite createtime_observed, !exists_observed, !createtime_cache_observed.
  fold f ph. split_and!.
  - destruct (observed w f); simpl; [done|]. by destruct (observed w ph).
  - intros p. rewrite exists_observed, createtime_cache_observed.
    destruct (observed w p); [eauto|done].
  - unfold coherent, os.stat_mtime. intros -> ->.
    destruct (fs w !! f); [done|]. by destruct (fs w !! ph).
Qed.

Section temp_file.
Variable self : TempFileResource.t.
Let f := TempFileResource.filename self.
Let ph := TempFileResource.placeholder_filename self.
Hypothesis Hwf : well_formed self.

Lemma placeholder_neq : ph ≠ f.
Proof. unfold ph. rewrite Hwf. by apply suffix_neq. Qed.

Lemma save_createtime_run (w : world) (primary : file) :
  ph ∉ denied w → fs w !! f = Some primary →
  ∃ w', TempFileResource._save_createtime self w = (Ok (), w') ∧
        fs w' = <[ph := File "" (mtime primary)]> (fs w) ∧
        cache w' = delete ph (cache w) ∧
        denied w' = denied w.
Proof.
  intros Hp Hf. pose proof placeholder_neq as Hne.
  unfold TempFileResource._save_createtime. fold f ph.
  rewrite bind_run. unfold fstatcache.invalidate_cached_state at 1, modify.
  rewrite bind_run, saferemove_run by done. simpl.
  set (w1 := match fs w !! ph with Some _ => _ | None => _ end).
  assert (H1 : fs w1 = delete ph (fs w) ∧ cache w1 = delete ph (cache w) ∧ denied w1 = denied w).
  { unfold w1. destruct (fs w !! ph) eqn:E; simpl; split_and!; try done.
    by rewrite delete_id. }
  destruct H1 as (Hfs1 & Hc1 & Hd1).
  rewrite bind_run, touch_run by by rewrite Hd1.
  unfold copystat. simpl. rewrite Hfs1.
  rewrite lookup_insert_ne, lookup_delete_ne, Hf by done.
  rewrite lookup_insert_eq. eexists. split; [done|]. simpl.
  rewrite Hfs1, Hc1, Hd1, lookup_delete_eq. simpl.
  rewrite insert_insert_eq, insert_delete_eq. done.
Qed.


Lemma touch_settles (w : world) :
  f ∉ denied w → ph ∉ denied w →
  ∃ w', TempFileResource.touch self w = (Ok (), w') ∧
        settled self w' ∧ denied w' = denied w.
Proof.
  intros Hf Hp. pose proof placeholder_neq as Hne.
  unfold TempFileResource.touch, TempFileResource.exists_. fold f ph.
  rewrite bind_run, get_exists_run.
  destruct (observed w f) as [t|] eqn:Ho; simpl.
  - rewrite bind_run. unfold fstatcache.invalidate_cached_state, modify.
    rewrite bind_run, touch_run by done.
    edestruct save_createtime_run as (w' & -> & Hfs & Hc & Hd);
      [| |eexists; split; [done|]].
    + done.
    + fold f. simpl. apply lookup_insert_eq.
    + fold f ph in Hfs, Hc. unfold settled. fold f ph. rewrite Hfs, Hc, Hd. simpl.
      rewrite lookup_insert_eq, lookup_delete_eq.
      rewrite lookup_insert_ne, lookup_insert_eq by done.
      rewrite lookup_delete_ne, lookup_delete_eq by done.
      split_and!; eauto.
  - rewrite bind_run. unfold fstatcache.invalidate_cached_state, modify.
    rewrite touch_run by done. eexists. split; [done|].
    unfold settled. fold f ph. simpl.
    rewrite lookup_insert_eq, lookup_delete_eq.
    rewrite lookup_delete_ne, lookup_insert_eq by done. rewrite Ho.
    split_and!; eauto.
Qed.

Lemma finalize_settles (w : world) (write_filename : string) :
  f ∉ denied w → ph ∉ denied w → write_filename ∉ denied w →
  is_Some (fs w !! write_filename) →
  ∃ w', TempFileResource.finalize self write_filename w = (Ok (), w') ∧
        settled self w' ∧ denied w' = denied w.
Proof.
  intros Hf Hp Hw [staged Hs].
  pose proof placeholder_neq as Hne.
  unfold TempFileResource.finalize. fold f ph.
  rewrite bind_run. unfold try_except. rewrite bind_run.
  unfold fstatcache.invalidate_cached_state, modify, os.rename. simpl.
  rewrite !bool_decide_eq_false_2 by done. rewrite Hs.
  edestruct save_createtime_run as (w' & -> & Hfs & Hc & Hd);
      [| |eexists; split; [done|]].
  - done.
  - fold f. simpl. apply lookup_insert_eq.
  - fold f ph in Hfs, Hc. unfold settled. fold f ph. rewrite Hfs, Hc, Hd. simpl.
    rewrite lookup_insert_eq, lookup_delete_eq.
    rewrite lookup_insert_ne, lookup_insert_eq by done.
    rewrite lookup_delete_ne, lookup_delete_eq by done.
    split_and!; eauto.
Qed.

Lemma cleanup_settled (w : world) :
  settled self w → f ∉ denied w →
  ∃ w' placeholder,
    TempFileResource.cleanup self w = (Ok (), w') ∧
    fs w' !! ph = Some placeholder ∧
    result (TempFileResource.exists_ self) w' = Ok false ∧
    result (TempFileResource.createtime self) w' = Ok (Some (mtime placeholder)).
Proof.
  intros ([placeholder Hph] & Hcp & Hprim) Hf.
  pose proof placeholder_neq as Hne. fold f ph in Hph, Hcp, Hprim.
  unfold TempFileResource.cleanup, TempFileResource.exists_, TempFileResource.createtime,
    result. fold f ph.
  rewrite bind_run, get_exists_run.
  destruct Hprim as [[Hcf [primary Hpf]]|Hcf].
  - rewrite observed_fresh, Hpf by done. simpl.
    unfold mbind, M_bind, bind, modify, fstatcache.invalidate_cached_state, os.remove.
    simpl. rewrite bool_decide_eq_false_2 by done. rewrite Hpf.
    eexists _, placeholder. split; [done|]. simpl.
    rewrite lookup_delete_ne by done. split; [done|].
    rewrite get_exists_run.
    set (w2 := emit _ _).
    assert (Hof : observed w2 f = None).
    { unfold observed, os.stat_mtime. simpl. by rewrite !lookup_delete_eq. }
    assert (Hop : observed w2 ph = Some (mtime placeholder)).
    { unfold observed, os.stat_mtime. simpl.
      rewrite lookup_delete_ne, lookup_insert_ne, Hcp by done.
      by rewrite lookup_delete_ne, Hph. }
    rewrite Hof. simpl. split; [done|].
    rewrite get_exists_run, observed_memo, Hop. simpl.
    by rewrite get_createtime_run, !observed_memo, Hop.
  - assert (Ho : observed w f = None) by (unfold observed; by rewrite Hcf).
    rewrite Ho. simpl.
    assert (Hm : memo f w = w).
    { unfold memo, set_cache. rewrite Ho, insert_id by done. apply world_eta. }
    rewrite Hm. eexists _, placeholder. split; [done|]. split; [done|].
    unfold mbind, M_bind, bind.
    rewrite !get_exists_run, Ho. simpl. rewrite Hm. split; [done|].
    rewrite get_exists_run. rewrite observed_fresh, Hph by done. simpl.
    rewrite get_createtime_run, observed_memo, observed_fresh, Hph by done. done.
Qed.

End temp_file.

(** C3. [TempFileResource.cleanup] never changes the placeholder; it
    changes the filesystem only by deleting the primary file, only when
    [exists] answers true and the file is there, after logging the
    removal and invalidating the cache entry; it does delete an existing,
    accessible primary file.  After a [touch] or a [finalize] followed by
    [cleanup], [exists] answers false and [createtime] answers the time
    of the placeholder, not [None]. *)
Theorem cleanup_spares_placeholder (self : TempFileResource.t) (w : world) :
  well_formed self →
  let f := TempFileResource.filename self in
  let ph := TempFileResource.placeholder_filename self in
  let w' := after (TempFileResource.cleanup self) w in
  fs w' !! ph = fs w !! ph ∧
  (fs w' = fs w ∨
   (result (TempFileResource.exists_ self) w = Ok true ∧
    is_Some (fs w !! f) ∧
    fs w' = delete f (fs w) ∧
    events_since w w' =
      [EvLog "resources" ("removing " +:+ f); EvInvalidate f; EvRemove f])) ∧
  (result (TempFileResource.exists_ self) w = Ok true →
   f ∉ denied w → is_Some (fs w !! f) →
   result (TempFileResource.cleanup self) w = Ok () ∧ fs w' = delete f (fs w)) ∧
  (f ∉ denied w → ph ∉ denied w →
   ∃ w1 w2 placeholder,
     TempFileResource.touch self w = (Ok (), w1) ∧
     TempFileResource.cleanup self w1 = (Ok (), w2) ∧
     fs w2 !! ph = Some placeholder ∧
     result (TempFileResource.exists_ self) w2 = Ok false ∧
     result (TempFileResource.createtime self) w2 = Ok (Some (mtime placeholder))) ∧
  (∀ write_filename,
   f ∉ denied w → ph ∉ denied w → write_filename ∉ denied w →
   is_Some (fs w !! write_filename) →
   ∃ w1 w2 placeholder,
     TempFileResource.finalize self write_filename w = (Ok (), w1) ∧
     TempFileResource.cleanup self w1 = (Ok (), w2) ∧
     fs w2 !! ph = Some placeholder ∧
     result (TempFileResource.exists_ self) w2 = Ok false ∧
     result (TempFileResource.createtime self) w2 = Ok (Some (mtime placeholder))).
Proof.
  intros Hwf f ph w'.
  pose proof (placeholder_neq self Hwf) as Hne. fold f ph in Hne.
  assert (Hrun :
    TempFileResource.cleanup self w =
    if bool_decide (is_Some (observed w f)) then
      if bool_decide (f ∈ denied w) then
        (Raise (OSError EACCES f),
         emit (EvInvalidate f) (set_cache (delete f)
           (emit (EvLog "resources" ("removing " +:+ f)) (memo f w))))
      else match fs w !! f with
           | Some _ =>
               (Ok (), emit (EvRemove f) (set_fs (delete f)
                  (emit (EvInvalidate f) (set_cache (delete f)
                    (emit (EvLog "resources" ("removing " +:+ f)) (memo f w))))))
           | None =>
               (Raise (OSError ENOENT f),
                emit (EvInvalidate f) (set_cache (delete f)
                  (emit (EvLog "resources" ("removing " +:+ f)) (memo f w))))
           end
    else (Ok (), memo f w)).
  { unfold TempFileResource.cleanup, TempFileResource.exists_. fold f.
    rewrite bind_run, get_exists_run.
    destruct (bool_decide (is_Some (observed w f))); [|done].
    unfold mbind, M_bind, bind, modify, fstatcache.invalidate_cached_state, os.remove.
    simpl. destruct (bool_decide (f ∈ denied w)); [done|].
    by destruct (fs w !! f). }
  assert (Hex : result (TempFileResource.exists_ self) w =
                Ok (bool_decide (is_Some (observed w f)))).
  { unfold result, TempFileResource.exists_. by rewrite get_exists_run. }
  split_and!.
  - unfold w', after. rewrite Hrun.
    repeat case_bool_decide; simpl; try done.
    destruct (fs w !! f) eqn:E; simpl; [|done]. by rewrite lookup_delete_ne.
  - unfold w', after, events_since. rewrite Hrun, Hex.
    repeat case_bool_decide; simpl; auto.
    destruct (fs w !! f) eqn:E; simpl; auto.
    right. split_and!; eauto.
    rewrite <- !app_assoc. by rewrite drop_app_length.
  - rewrite Hex. intros [= Ho] Hd [primary Hp].
    unfold w', after, result. rewrite Hrun, Ho.
    rewrite bool_decide_eq_false_2 by done. by rewrite Hp.
  - intros Hf Hp.
    destruct (touch_settles self Hwf w) as (w1 & Ht & Hs & Hd); [done..|].
    destruct (cleanup_settled self Hwf w1) as (w2 & placeholder & Hc); [done| |].
    { by rewrite Hd. }
    exists w1, w2, placeholder. by rewrite Ht.
  - intros write_filename Hf Hp Hw Hstaged.
    destruct (finalize_settles self Hwf w write_filename) as (w1 & Ht & Hs & Hd); [done..|].
    destruct (cleanup_settled self Hwf w1) as (w2 & placeholder & Hc); [done| |].
    { by rewrite Hd. }
    exists w1, w2, placeholder. by rewrite Ht.
Qed.

(** C3 on [tmp_example]: a staged file is committed, then cleaned up. *)
Lemma cleanup_spares_placeholder_witness :
  well_formed tmp_example ∧
  ∃ w1 w2 placeholder,
    TempFileResource.finalize tmp_example "tmp/staged" tmp_world = (Ok (), w1) ∧
    TempFileResource.cleanup tmp_example w1 = (Ok (), w2) ∧
    fs w2 !! "tmp/align._placeholder" = Some placeholder ∧
    result (TempFileResource.exists_ tmp_example) w2 = Ok false ∧
    result (TempFileResource.createtime tmp_example) w2 = Ok (Some (mtime placeholder)).
Proof.
  split; [reflexivity|].
  refine (proj2 (proj2 (proj2 (proj2
    (cleanup_spares_placeholder tmp_example tmp_world eq_refl)))) "tmp/staged" _ _ _ _).
  - vm_compute. set_solver.
  - set_solver.
  - set_solver.
  - by eexists; vm_compute.
Defined.

(** ** Equality of objects *)

Section equality.
Context {obj : Type} {RT : PyRuntime obj}.
Implicit Types (a b : obj).

(** C8, as the code has it.  (a) An answer of [a.__eq__(b)], true or
    false, is returned as it is.  Without an answer: (b) values of
    different classes are unequal, whatever [==] would say; (c) values of
    one class that both have an attribute dictionary are compared by
    their dictionaries; (d) values of one class of which one has no
    attribute dictionary are compared by [==].  The procedure differs
    from the three tiers of the specification only in (b). *)
Theorem obj_equal_tiers a b :
  (∀ r, dunder_eq a b = EqReturn r → obj_equal a b = r) ∧
  (no_answer a b → dunder_class a ≠ dunder_class b → obj_equal a b = false) ∧
  (no_answer a b → dunder_class a = dunder_class b →
   ∀ d1 d2, dunder_dict a = Some d1 → dunder_dict b = Some d2 →
            obj_equal a b = dict_eq d1 d2) ∧
  (no_answer a b → dunder_class a = dunder_class b →
   dunder_dict a = None ∨ dunder_dict b = None →
   obj_equal a b = op_eq a b) ∧
  (obj_equal a b ≠ obj_equal_three_tier a b →
   no_answer a b ∧ dunder_class a ≠ dunder_class b ∧
   obj_equal a b = false ∧ op_eq a b = true).
Proof.
  unfold no_answer, obj_equal, obj_equal_three_tier. split_and!.
  - by intros r ->.
  - intros [-> | ->] Hc; by rewrite bool_decide_eq_false_2.
  - intros [-> | ->] Hc d1 d2 -> ->; by rewrite bool_decide_eq_true_2.
  - intros [-> | ->] Hc [Hd | Hd]; rewrite bool_decide_eq_true_2 by done;
      rewrite Hd; by destruct (dunder_dict a).
  - destruct (dunder_eq a b) eqn:He; try done;
      (case_bool_decide as Hc; simpl; [done|]);
      destruct (op_eq a b); naive_solver.
Qed.

End equality.

(** C8 fails on the code: [A().__eq__] gives no answer, the classes
    differ, and [obj_equal] is [False] where raw equality is [True]. *)
Lemma obj_equal_skips_raw_equality :
  no_answer (Py2.Inst class_A ∅) (Py2.Inst class_B ∅) ∧
  op_eq (Py2.Inst class_A ∅) (Py2.Inst class_B ∅) = true ∧
  obj_equal_three_tier (Py2.Inst class_A ∅) (Py2.Inst class_B ∅) = true ∧
  obj_equal (Py2.Inst class_A ∅) (Py2.Inst class_B ∅) = false.
Proof. split_and!; [by left|reflexivity..]. Qed.

(** An answer [False] is final, where a declined comparison goes on to
    the attributes: two instances with the same attributes of a class
    whose [__eq__] answers [False], respectively declines. *)
Lemma declined_is_not_false :
  obj_equal (Py2.Inst (Py2.Klass "C" (Py2.EqAlways false) false) {[ "x" := Py2.AInt 1 ]})
            (Py2.Inst (Py2.Klass "C" (Py2.EqAlways false) false) {[ "x" := Py2.AInt 1 ]})
    = false ∧
  obj_equal (Py2.Inst (Py2.Klass "D" Py2.EqDeclines false) {[ "x" := Py2.AInt 1 ]})
            (Py2.Inst (Py2.Klass "D" Py2.EqDeclines false) {[ "x" := Py2.AInt 1 ]})
    = true.
Proof. split; vm_compute; reflexivity. Qed.

(** ** Temporary objects *)

Section manager.
Context {obj : Type} {RT : PyRuntime obj}.
Implicit Types (self : TempObjManager.t) (w : world) (o v : obj).

Lemma get_obj_run self w :
  let inp := TempObjResource.filename (TempObjManager.input self) in
  TempObjManager.get_obj self w =
    if bool_decide (inp ∈ denied w) then (Ok py_None, w)
    else match fs w !! inp with
         | None => (Ok py_None, w)
         | Some stored =>
             match pickle_loads (content stored) with
             | Some v => (Ok v, w)
             | None => (Raise UnpicklingError, w)
             end
         end.
Proof.
  intros inp. unfold TempObjManager.get_obj, try_except, open_read, pickle_load.
  fold inp. unfold mbind, M_bind, bind, ret, raise. simpl.
  destruct (bool_decide (inp ∈ denied w)); [done|].
  destruct (fs w !! inp) as [stored|]; [|done].
  by destruct (pickle_loads (content stored)).
Qed.

(** C6, as the code has it.  With the input slot accessible, [get_obj]
    leaves the world alone and answers [None] when the slot file does not
    exist, the stored value when the file holds a pickle, and lets the
    unpickling error through otherwise. *)
Theorem get_obj_reads_input self w :
  let inp := TempObjResource.filename (TempObjManager.input self) in
  inp ∉ denied w →
  after (TempObjManager.get_obj self) w = w ∧
  result (TempObjManager.get_obj self) w =
    match fs w !! inp with
    | None => Ok py_None
    | Some stored =>
        match pickle_loads (content stored) with
        | Some v => Ok v
        | None => Raise UnpicklingError
        end
    end.
Proof.
  intros inp Hd. unfold after, result. rewrite get_obj_run. fold inp.
  rewrite bool_decide_eq_false_2 by done.
  destruct (fs w !! inp) as [stored|]; [|done].
  by destruct (pickle_loads (content stored)).
Qed.

Lemma finalize_run self o w :
  let inp := TempObjResource.filename (TempObjManager.input self) in
  let out := TempObjResource.filename (TempObjManager.output self) in
  inp ≠ out → inp ∉ denied w → out ∉ denied w → coherent w inp →
  (∀ stored, fs w !! inp = Some stored → is_Some (pickle_loads (content stored))) →
  let w1 := memo inp (emit (EvWrite out)
              (tick (set_fs (<[out := File (pickle_dumps o) (now w)]>) w))) in
  let w2 := if differs_from_input self o w
            then emit (EvWrite inp)
                   (tick (set_fs (<[inp := File (pickle_dumps o) (now w + 1)]>) w1))
            else w1 in
  TempObjManager.finalize self o w =
    (Ok (), emit (EvInvalidate out) (set_cache (delete out)
              (emit (EvInvalidate inp) (set_cache (delete inp) w2)))).
Proof.
  intros inp out Hne Hdi Hdo Hco Hpk w1 w2.
  unfold TempObjManager.finalize. fold inp out.
  rewrite bind_run. unfold open_write at 1.
  rewrite bool_decide_eq_false_2 by done.
  rewrite bind_run. unfold TempObjResource.exists_. rewrite get_exists_run.
  fold inp. fold w1.
  set (wa := emit _ _) in *.
  assert (Hobs : observed wa inp = mtime <$> fs w !! inp).
  { rewrite <- Hco. unfold observed, os.stat_mtime. simpl.
    by rewrite lookup_insert_ne. }
  rewrite Hobs. unfold w2, differs_from_input. fold inp.
  destruct (fs w !! inp) as [stored|] eqn:Hin; simpl.
  - destruct (Hpk stored eq_refl) as [v Hv]. rewrite Hv.
    rewrite !bind_run, get_obj_run. fold inp.
    rewrite bool_decide_eq_false_2 by done.
    replace (fs w1 !! inp) with (Some stored)
      by (unfold w1; simpl; by rewrite lookup_insert_ne).
    rewrite Hv. simpl.
    destruct (obj_equal o v); simpl; [done|].
    unfold mbind, M_bind, bind, open_write. simpl.
    by rewrite bool_decide_eq_false_2.
  - unfold mbind, M_bind, bind, open_write. simpl.
    by rewrite bool_decide_eq_false_2.
Qed.

(** C2.  [TempObjManager.finalize] on a manager whose slots are two
    accessible files, whose input slot holds a pickle if it exists, and
    for whose input slot the stat cache is coherent: it returns; the
    output slot is written with the pickled value in every case; the
    input slot is written if and only if it was absent or [obj_equal]
    finds the value different from the stored one, and is then the
    pickled value; it is the file it was when the comparison says equal;
    the cache entries of both slots are invalidated, in every case and so
    when the input slot is written. *)
Theorem finalize_rewrites_input_iff_changed self o w :
  let inp := TempObjResource.filename (TempObjManager.input self) in
  let out := TempObjResource.filename (TempObjManager.output self) in
  inp ≠ out → inp ∉ denied w → out ∉ denied w → coherent w inp →
  (∀ stored, fs w !! inp = Some stored → is_Some (pickle_loads (content stored))) →
  let w' := after (TempObjManager.finalize self o) w in
  let evs := events_since w w' in
  result (TempObjManager.finalize self o) w = Ok () ∧
  (EvWrite out ∈ evs ∧ fs w' !! out = Some (File (pickle_dumps o) (now w))) ∧
  (EvWrite inp ∈ evs ↔
     fs w !! inp = None ∨
     ∃ stored v, fs w !! inp = Some stored ∧
                 pickle_loads (content stored) = Some v ∧
                 obj_equal o v = false) ∧
  (EvWrite inp ∈ evs →
     fs w' !! inp = Some (File (pickle_dumps o) (now w + 1))) ∧
  (∀ stored v, fs w !! inp = Some stored →
     pickle_loads (content stored) = Some v → obj_equal o v = true →
     (EvWrite inp ∉ evs) ∧ fs w' !! inp = Some stored) ∧
  (EvInvalidate inp ∈ evs ∧ EvInvalidate out ∈ evs ∧
   cache w' !! inp = None ∧ cache w' !! out = None).
Proof.
  intros inp out Hne Hdi Hdo Hco Hpk w' evs.
  unfold evs, w', result, after.
  rewrite finalize_run by done. fold inp out. simpl.
  assert (Hd : differs_from_input self o w = true ↔
     fs w !! inp = None ∨
     ∃ stored v, fs w !! inp = Some stored ∧
                 pickle_loads (content stored) = Some v ∧
                 obj_equal o v = false).
  { unfold differs_from_input. fold inp.
    destruct (fs w !! inp) as [stored|] eqn:Hin; [|naive_solver].
    destruct (Hpk stored eq_refl) as [v Hv]. rewrite Hv.
    destruct (obj_equal o v) eqn:Heq; simpl; split; try naive_solver. }
  assert (Heq : ∀ stored v, fs w !! inp = Some stored →
     pickle_loads (content stored) = Some v → obj_equal o v = true →
     differs_from_input self o w = false).
  { intros stored v Hin Hv He. unfold differs_from_input. fold inp.
    by rewrite Hin, Hv, He. }
  rewrite <- Hd. clear Hd.
  unfold events_since.
  destruct (differs_from_input self o w) eqn:Hdiff; simpl.
  - rewrite <- !app_assoc, drop_app_length. simpl.
    rewrite lookup_insert_eq, lookup_insert_ne, lookup_insert_eq by done.
    rewrite lookup_delete_eq, lookup_delete_ne, lookup_delete_eq by done.
    split_and!; try done; try set_solver.
  - rewrite <- !app_assoc, drop_app_length. simpl.
    rewrite lookup_insert_eq, lookup_insert_ne by done.
    rewrite lookup_delete_eq, lookup_delete_ne, lookup_delete_eq by done.
    split_and!; try done; try set_solver.
Qed.

(** C10.  [get_obj] answers the same [None] for an input slot that does
    not exist and for one that holds a pickled [None]; and once a
    [finalize] of a value has returned and has written the input slot,
    [get_obj] answers that value. *)
Theorem get_obj_none_is_ambiguous self w v :
  let inp := TempObjResource.filename (TempObjManager.input self) in
  (inp ∉ denied w → fs w !! inp = None →
   result (TempObjManager.get_obj self) w = Ok py_None) ∧
  (inp ∉ denied w → ∀ t, fs w !! inp = Some (File (pickle_dumps py_None) t) →
   result (TempObjManager.get_obj self) w = Ok py_None) ∧
  (let w' := after (TempObjManager.finalize self v) w in
   result (TempObjManager.finalize self v) w = Ok () →
   EvWrite inp ∈ events_since w w' →
   result (TempObjManager.get_obj self) w' = Ok v).
Proof.
  intros inp. split_and!.
  - intros Hd Hn. unfold result. rewrite get_obj_run. fold inp.
    by rewrite bool_decide_eq_false_2, Hn.
  - intros Hd t Hs. unfold result. rewrite get_obj_run. fold inp.
    rewrite bool_decide_eq_false_2, Hs by done. simpl.
    by rewrite pickle_loads_dumps.
  - intros w'. unfold w', result, after, events_since.
    set (out := TempObjResource.filename (TempObjManager.output self)).
    destruct (TempObjManager.finalize self v w) as [r wf] eqn:Hrun. simpl.
    intros -> Hin.
    assert (Hread : ∀ t, inp ∉ denied wf →
              fs wf !! inp = Some (File (pickle_dumps v) t) →
              (TempObjManager.get_obj self wf).1 = Ok v).
    { intros t Hd Hs. rewrite get_obj_run. fold inp.
      rewrite bool_decide_eq_false_2, Hs by done. simpl.
      by rewrite pickle_loads_dumps. }
    revert Hrun. unfold TempObjManager.finalize. fold inp out.
    rewrite bind_run. unfold open_write at 1.
    destruct (bool_decide (out ∈ denied w)) eqn:Hdo; [done|].
    apply bool_decide_eq_false in Hdo.
    rewrite bind_run. unfold TempObjResource.exists_. rewrite get_exists_run.
    fold inp. set (wa := emit _ _). set (w1 := memo inp wa).
    rewrite bind_run.
    assert (Hrest : ∀ differs : bool,
      ((if differs then open_write inp (pickle_dumps v) else ret ()) ≫= λ _,
        fstatcache.invalidate_cached_state inp ≫= λ _,
        fstatcache.invalidate_cached_state out) w1 = (Ok (), wf) →
      (TempObjManager.get_obj self wf).1 = Ok v).
    { intros differs. unfold mbind, M_bind, bind, open_write, ret,
        fstatcache.invalidate_cached_state, modify.
      destruct differs; simpl.
      - destruct (bool_decide (inp ∈ denied w)) eqn:Hdi; [done|].
        apply bool_decide_eq_false in Hdi. intros [= <-].
        eapply Hread; simpl; [done|]. apply lookup_insert_eq.
      - intros [= <-]. simpl in Hin.
        rewrite <- !app_assoc, drop_app_length in Hin.
        assert (inp = out) as Hio by set_solver.
        eapply Hread; simpl; [by rewrite Hio|].
        rewrite Hio. apply lookup_insert_eq. }
    destruct (bool_decide (is_Some (observed wa inp))); simpl.
    + rewrite bind_run, get_obj_run.
      destruct (bool_decide (_ ∈ denied w1));
        [exact (Hrest (negb (obj_equal v py_None)))|].
      destruct (fs w1 !! _) as [stored|];
        [|exact (Hrest (negb (obj_equal v py_None)))].
      destruct (pickle_loads (content stored)) as [x|]; [|done].
      exact (Hrest (negb (obj_equal v x))).
    + exact (Hrest true).
Qed.

End manager.

(** C6 on [obj_manager] with the integer 7 accepted. *)
Lemma get_obj_reads_input_witness :
  ("tmp/obj._o" ∉ denied (world_with_input (Py2.Atom (Py2.AInt 7)))) ∧
  result (TempObjManager.get_obj obj_manager) (world_with_input (Py2.Atom (Py2.AInt 7)))
    = Ok (Py2.Atom (Py2.AInt 7)).
Proof.
  assert (Hd : "tmp/obj._o" ∉ denied (world_with_input (Py2.Atom (Py2.AInt 7))))
    by (simpl; apply not_elem_of_empty).
  split; [exact Hd|].
  destruct (get_obj_reads_input obj_manager _ Hd) as [_ ->].
  unfold world_with_input, obj_manager. cbn [fs TempObjManager.input TempObjResource.filename].
  rewrite lookup_singleton_eq. cbn [content].
  by rewrite pickle_loads_dumps.
Defined.

(** C6 fails on the code twice: a slot that exists but may not be opened
    makes [open] raise [IOError] with errno 13, and [get_obj] answers
    [None]; a slot that holds a pickled [None] exists, and [get_obj]
    answers [None]. *)
Lemma get_obj_none_without_absence :
  (is_Some (fs world_input_denied !! "tmp/obj._o") ∧
   result (open_read "tmp/obj._o") world_input_denied =
     Raise (IOError EACCES "tmp/obj._o") ∧
   result (TempObjManager.get_obj obj_manager) world_input_denied = Ok py_None) ∧
  (is_Some (fs (world_with_input py_None) !! "tmp/obj._o") ∧
   result (TempObjManager.get_obj obj_manager) (world_with_input py_None) = Ok py_None).
Proof.
  split_and!.
  - simpl. rewrite lookup_singleton_eq. eauto.
  - unfold result, open_read. simpl. by rewrite bool_decide_eq_true_2 by set_solver.
  - unfold result. rewrite get_obj_run. simpl.
    by rewrite bool_decide_eq_true_2 by set_solver.
  - simpl. rewrite lookup_singleton_eq. eauto.
  - unfold result. rewrite get_obj_run.
    unfold world_with_input, obj_manager.
    cbn [fs denied TempObjManager.input TempObjResource.filename].
    rewrite bool_decide_eq_false_2 by set_solver.
    rewrite lookup_singleton_eq. cbn [content].
    by rewrite pickle_loads_dumps.
Qed.

(** C2 on [obj_manager]: 7 is accepted, 8 is produced, the input slot is
    written. *)
Lemma finalize_rewrites_input_iff_changed_witness :
  result (TempObjManager.finalize obj_manager (Py2.Atom (Py2.AInt 8)))
    (world_with_input (Py2.Atom (Py2.AInt 7))) = Ok () ∧
  EvWrite "tmp/obj._o" ∈
    events_since (world_with_input (Py2.Atom (Py2.AInt 7)))
      (after (TempObjManager.finalize obj_manager (Py2.Atom (Py2.AInt 8)))
         (world_with_input (Py2.Atom (Py2.AInt 7)))).
Proof.
  assert (Hpk : ∀ stored,
    fs (world_with_input (Py2.Atom (Py2.AInt 7))) !! "tmp/obj._o" = Some stored →
    is_Some (pickle_loads (content stored))).
  { intros stored. unfold world_with_input. cbn [fs].
    rewrite lookup_singleton_eq. intros [= <-].
    exists (Py2.Atom (Py2.AInt 7)). exact (pickle_loads_dumps (Py2.Atom (Py2.AInt 7))). }
  assert (Hco : coherent (world_with_input (Py2.Atom (Py2.AInt 7))) "tmp/obj._o")
    by reflexivity.
  destruct (finalize_rewrites_input_iff_changed obj_manager (Py2.Atom (Py2.AInt 8))
    (world_with_input (Py2.Atom (Py2.AInt 7)))
    ltac:(discriminate) ltac:(simpl; apply not_elem_of_empty)
    ltac:(simpl; apply not_elem_of_empty) Hco Hpk) as (Hok & _ & Hiff & _).
  split; [exact Hok|].
  apply Hiff. right. eexists _, _. split; [|split].
  - unfold world_with_input. cbn [fs]. apply lookup_singleton_eq.
  - cbn [content]. apply pickle_loads_dumps.
  - reflexivity.
Defined.

(** C2 fails on the code as it is worded.  With [B()] accepted and
    [A()] produced, the three tiers of the specification find the two
    equal (through the reflected [B.__eq__]), and the input slot is
    rewritten all the same, [obj_equal] answering [False] for values of
    different classes.  And with a cache entry that still shows an input
    slot that is gone, producing [None] leaves the absent slot
    unwritten. *)
Lemma finalize_rewrites_on_class_mismatch :
  (obj_equal_three_tier (Py2.Inst class_A ∅) (Py2.Inst class_B ∅) = true ∧
   fs (world_with_input (Py2.Inst class_B ∅)) !! "tmp/obj._o" =
     Some (File (pickle_dumps (Py2.Inst class_B ∅)) 4) ∧
   result (TempObjManager.finalize obj_manager (Py2.Inst class_A ∅))
     (world_with_input (Py2.Inst class_B ∅)) = Ok () ∧
   events_since (world_with_input (Py2.Inst class_B ∅))
     (after (TempObjManager.finalize obj_manager (Py2.Inst class_A ∅))
        (world_with_input (Py2.Inst class_B ∅))) =
     [EvWrite "tmp/obj._i"; EvWrite "tmp/obj._o";
      EvInvalidate "tmp/obj._o"; EvInvalidate "tmp/obj._i"] ∧
   fs (after (TempObjManager.finalize obj_manager (Py2.Inst class_A ∅))
         (world_with_input (Py2.Inst class_B ∅))) !! "tmp/obj._o" =
     Some (File (pickle_dumps (Py2.Inst class_A ∅)) 10)) ∧
  (fs world_stale_input !! "tmp/obj._o" = None ∧
   result (TempObjManager.finalize obj_manager (Py2.Atom Py2.ANone))
     world_stale_input = Ok () ∧
   events_since world_stale_input
     (after (TempObjManager.finalize obj_manager (Py2.Atom Py2.ANone))
        world_stale_input) =
     [EvWrite "tmp/obj._i"; EvInvalidate "tmp/obj._o"; EvInvalidate "tmp/obj._i"] ∧
   fs (after (TempObjManager.finalize obj_manager (Py2.Atom Py2.ANone))
         world_stale_input) !! "tmp/obj._o" = None).
Proof. split_and!; vm_compute; reflexivity. Qed.

(** C10 on [obj_manager]: no slot, a slot holding [None], and the slot
    after 8 was produced on a first run. *)
Lemma get_obj_none_is_ambiguous_witness :
  result (TempObjManager.get_obj obj_manager) empty_world = Ok py_None ∧
  result (TempObjManager.get_obj obj_manager) (world_with_input py_None) = Ok py_None ∧
  result (TempObjManager.get_obj obj_manager)
    (after (TempObjManager.finalize obj_manager (Py2.Atom (Py2.AInt 8))) empty_world)
    = Ok (Py2.Atom (Py2.AInt 8)).
Proof.
  destruct (get_obj_none_is_ambiguous obj_manager empty_world (Py2.Atom (Py2.AInt 8)))
    as (Habsent & _ & Hafter).
  destruct (get_obj_none_is_ambiguous obj_manager (world_with_input py_None)
              (Py2.Atom (Py2.AInt 8))) as (_ & Hnone & _).
  split_and!.
  - apply Habsent; simpl; [apply not_elem_of_empty | apply lookup_empty].
  - apply (Hnone ltac:(simpl; apply not_elem_of_empty) 4).
    unfold world_with_input. cbn [fs]. apply lookup_singleton_eq.
  - apply Hafter.
    + reflexivity.
    + unfold events_since, after. simpl. set_solver.
Defined.

(** * Further properties *)

(** ** Touch *)

Lemma guarded_touch_run (f msg : string) (w : world) :
  (fstatcache.get_exists f ≫= λ e : bool,
     if negb e then raise (PyException msg)
     else fstatcache.invalidate_cached_state f ;; helpers.touch f) w =
  match observed w f with
  | None => (Raise (PyException msg), memo f w)
  | Some _ =>
      if bool_decide (f ∈ denied w)
      then (Raise (IOError EACCES f),
            emit (EvInvalidate f) (set_cache (delete f) (memo f w)))
      else (Ok (),
            emit (EvTouch f) (tick (set_fs
              (<[f := File (default "" (content <$> fs w !! f)) (now w)]>)
              (emit (EvInvalidate f) (set_cache (delete f) (memo f w))))))
  end.
Proof.
  rewrite bind_run, get_exists_run.
  destruct (observed w f) as [t|]; simpl; [|done].
  unfold mbind, M_bind, bind, fstatcache.invalidate_cached_state, modify,
    helpers.touch. simpl.
  by destruct (bool_decide (f ∈ denied w)).
Qed.

(** X1.  [UserResource.touch] raises "cannot touch missing user output"
    when [exists] answers false and then changes no file; otherwise it
    invalidates the cache entry and then touches the file: no other file
    changes, the content of the file is kept, its time becomes the
    current time, and that is the time [createtime] answers next. *)
Theorem user_touch_guarded (self : UserResource.t) (w : world) :
  let f := UserResource.filename self in
  let w' := after (UserResource.touch self) w in
  match observed w f with
  | None =>
      result (UserResource.touch self) w =
        Raise (PyException "cannot touch missing user output") ∧
      fs w' = fs w ∧ events_since w w' = []
  | Some _ =>
      if bool_decide (f ∈ denied w) then
        result (UserResource.touch self) w = Raise (IOError EACCES f) ∧
        fs w' = fs w
      else
        result (UserResource.touch self) w = Ok () ∧
        events_since w w' = [EvInvalidate f; EvTouch f] ∧
        (∀ p, p ≠ f → fs w' !! p = fs w !! p) ∧
        (∀ old, fs w !! f = Some old →
                fs w' !! f = Some (File (content old) (now w))) ∧
        result (UserResource.exists_ self) w' = Ok true ∧
        result (UserResource.createtime self) w' = Ok (Some (now w))
  end.
Proof.
  intros f w'. unfold w', result, after, UserResource.touch,
    UserResource.exists_, UserResource.createtime. fold f.
  rewrite guarded_touch_run.
  destruct (observed w f) as [t|]; simpl.
  - destruct (bool_decide (f ∈ denied w)); simpl; [done|].
    unfold events_since. simpl. rewrite <- app_assoc, drop_app_length.
    rewrite get_exists_run, get_createtime_run. simpl.
    unfold observed. simpl. rewrite lookup_delete_eq.
    unfold os.stat_mtime. simpl. rewrite lookup_insert_eq. simpl.
    split_and!; try done.
    + intros p Hp. by rewrite lookup_insert_ne.
    + intros old Ho. by rewrite Ho.
  - unfold events_since. simpl. by rewrite drop_all.
Qed.

(** X2.  [TempObjResource.touch] raises "cannot touch missing object"
    when [exists] answers false and then changes no file; otherwise it
    invalidates the cache entry and then touches the slot file, whose
    content (the pickle) is kept and whose time becomes the current
    time, the one [createtime] answers next. *)
Theorem obj_touch_guarded (self : TempObjResource.t) (w : world) :
  let f := TempObjResource.filename self in
  let w' := after (TempObjResource.touch self) w in
  match observed w f with
  | None =>
      result (TempObjResource.touch self) w =
        Raise (PyException "cannot touch missing object") ∧
      fs w' = fs w ∧ events_since w w' = []
  | Some _ =>
      if bool_decide (f ∈ denied w) then
        result (TempObjResource.touch self) w = Raise (IOError EACCES f) ∧
        fs w' = fs w
      else
        result (TempObjResource.touch self) w = Ok () ∧
        events_since w w' = [EvInvalidate f; EvTouch f] ∧
        (∀ p, p ≠ f → fs w' !! p = fs w !! p) ∧
        (∀ old, fs w !! f = Some old →
                fs w' !! f = Some (File (content old) (now w))) ∧
        result (TempObjResource.exists_ self) w' = Ok true ∧
        result (TempObjResource.createtime self) w' = Ok (Some (now w))
  end.
Proof.
  intros f w'. unfold w', result, after, TempObjResource.touch,
    TempObjResource.exists_, TempObjResource.createtime. fold f.
  rewrite guarded_touch_run.
  destruct (observed w f) as [t|]; simpl.
  - destruct (bool_decide (f ∈ denied w)); simpl; [done|].
    unfold events_since. simpl. rewrite <- app_assoc, drop_app_length.
    rewrite get_exists_run, get_createtime_run. simpl.
    unfold observed. simpl. rewrite lookup_delete_eq.
    unfold os.stat_mtime. simpl. rewrite lookup_insert_eq. simpl.
    split_and!; try done.
    + intros p Hp. by rewrite lookup_insert_ne.
    + intros old Ho. by rewrite Ho.
  - unfold events_since. simpl. by rewrite drop_all.
Qed.

(** ** Temporary files, continued *)

(** X3.  [TempFileResource.touch] on accessible paths always returns.
    When [exists] answers true the primary file keeps its content and
    gets the current time, and the placeholder is replaced by an empty
    file carrying that same time; when it answers false the primary file
    is left alone and only the placeholder is touched.  No other file
    changes, and [createtime] next answers the time of the touch. *)
Theorem temp_touch_stamps_placeholder (self : TempFileResource.t) (w : world) :
  let f := TempFileResource.filename self in
  let ph := TempFileResource.placeholder_filename self in
  well_formed self → f ∉ denied w → ph ∉ denied w →
  let w' := after (TempFileResource.touch self) w in
  result (TempFileResource.touch self) w = Ok () ∧
  match observed w f with
  | Some _ =>
      fs w' !! f = Some (File (default "" (content <$> fs w !! f)) (now w)) ∧
      fs w' !! ph = Some (File "" (now w))
  | None =>
      fs w' !! f = fs w !! f ∧
      fs w' !! ph = Some (File (default "" (content <$> fs w !! ph)) (now w))
  end ∧
  (∀ p, p ≠ f → p ≠ ph → fs w' !! p = fs w !! p) ∧
  result (TempFileResource.createtime self) w' = Ok (Some (now w)).
Proof.
  intros f ph Hwf Hf Hp w'.
  pose proof (placeholder_neq self Hwf) as Hne. fold f ph in Hne.
  unfold w', result at 1, after.
  rewrite createtime_observed. fold f ph.
  unfold TempFileResource.touch, TempFileResource.exists_. fold f ph.
  rewrite bind_run, get_exists_run.
  destruct (observed w f) as [t|] eqn:Ho; simpl.
  - rewrite bind_run. unfold fstatcache.invalidate_cached_state, modify.
    rewrite bind_run, touch_run by done.
    edestruct (save_createtime_run self Hwf) as (w1 & -> & Hfs & Hc & Hd);
      [done|apply lookup_insert_eq|].
    fold f ph in Hfs, Hc. simpl in *.
    unfold observed, os.stat_mtime. rewrite Hfs, Hc.
    rewrite lookup_delete_ne, lookup_delete_eq by done.
    rewrite lookup_insert_ne, !lookup_insert_eq by done. simpl.
    split_and!; try done.
    intros p Hpf Hpp. by rewrite !lookup_insert_ne.
  - rewrite bind_run. unfold fstatcache.invalidate_cached_state, modify.
    rewrite touch_run by done. simpl.
    unfold observed, os.stat_mtime. simpl.
    rewrite lookup_delete_ne, lookup_insert_eq, lookup_delete_eq by done.
    rewrite lookup_insert_ne, lookup_insert_eq by done. rewrite Ho. simpl.
    split_and!; try done.
    intros p Hpf Hpp. by rewrite !lookup_insert_ne.
Qed.

Lemma temp_touch_stamps_placeholder_witness :
  result (TempFileResource.createtime tmp_example)
    (after (TempFileResource.touch tmp_example) tmp_world) = Ok (Some 10).
Proof.
  refine (proj2 (proj2 (proj2
    (temp_touch_stamps_placeholder tmp_example tmp_world eq_refl _ _)))).
  - simpl. apply not_elem_of_empty.
  - simpl. apply not_elem_of_empty.
Defined.

(** X4.  [TempFileResource.finalize] of a staged file that exists, on
    accessible paths: it returns; the primary file is the staged file,
    content and time; the placeholder is an empty file with the time of
    the staged file; the staging path is gone; no other file changes;
    [exists] next answers true and [createtime] the time of the staged
    file. *)
Theorem temp_finalize_commits (self : TempFileResource.t)
    (write_filename : string) (staged : file) (w : world) :
  let f := TempFileResource.filename self in
  let ph := TempFileResource.placeholder_filename self in
  well_formed self →
  f ∉ denied w → ph ∉ denied w → write_filename ∉ denied w →
  fs w !! write_filename = Some staged →
  let w' := after (TempFileResource.finalize self write_filename) w in
  result (TempFileResource.finalize self write_filename) w = Ok () ∧
  fs w' !! f = Some staged ∧
  fs w' !! ph = Some (File "" (mtime staged)) ∧
  (write_filename ≠ f → write_filename ≠ ph → fs w' !! write_filename = None) ∧
  (∀ p, p ≠ f → p ≠ ph → p ≠ write_filename → fs w' !! p = fs w !! p) ∧
  result (TempFileResource.exists_ self) w' = Ok true ∧
  result (TempFileResource.createtime self) w' = Ok (Some (mtime staged)).
Proof.
  intros f ph Hwf Hf Hp Hw Hs w'.
  pose proof (placeholder_neq self Hwf) as Hne. fold f ph in Hne.
  unfold w', result at 1, after.
  rewrite createtime_observed. unfold TempFileResource.exists_.
  rewrite exists_observed. fold f ph.
  unfold TempFileResource.finalize. fold f ph.
  rewrite bind_run. unfold try_except. rewrite bind_run.
  unfold fstatcache.invalidate_cached_state, modify, os.rename. simpl.
  rewrite !bool_decide_eq_false_2 by done. rewrite Hs.
  edestruct (save_createtime_run self Hwf) as (w1 & -> & Hfs & Hc & Hd);
    [done|apply lookup_insert_eq|].
  fold f ph in Hfs, Hc. simpl in *.
  unfold observed, os.stat_mtime. rewrite Hfs, Hc.
  rewrite lookup_delete_ne, lookup_delete_eq by done.
  rewrite lookup_insert_ne, !lookup_insert_eq by done. simpl.
  split_and!; try done.
  - intros H1 H2. by rewrite !lookup_insert_ne, lookup_delete_eq.
  - intros p H1 H2 H3. by rewrite !lookup_insert_ne, lookup_delete_ne.
Qed.

Lemma temp_finalize_commits_witness :
  fs (after (TempFileResource.finalize tmp_example "tmp/staged") tmp_world)
    !! "tmp/align" = Some (File "new" 7).
Proof.
  refine (proj1 (proj2
    (temp_finalize_commits tmp_example "tmp/staged" (File "new" 7) tmp_world
       eq_refl _ _ _ _))).
  - simpl. apply not_elem_of_empty.
  - simpl. apply not_elem_of_empty.
  - simpl. apply not_elem_of_empty.
  - vm_compute. reflexivity.
Defined.

(** X5.  [TempFileResource.finalize] of a staged file that does not
    exist raises [OutputMissingException] of the staged path before the
    placeholder is looked at: no file changes, the placeholder keeps its
    time, and the only effect is the invalidation of the primary's cache
    entry. *)
Theorem temp_finalize_missing_keeps_placeholder (self : TempFileResource.t)
    (write_filename : string) (w : world) :
  fs w !! write_filename = None →
  let w' := after (TempFileResource.finalize self write_filename) w in
  result (TempFileResource.finalize self write_filename) w =
    Raise (OutputMissingException write_filename) ∧
  fs w' = fs w ∧
  events_since w w' = [EvInvalidate (TempFileResource.filename self)] ∧
  cache w' = delete (TempFileResource.filename self) (cache w).
Proof.
  intros Hs w'. unfold w', result, after, events_since, TempFileResource.finalize.
  rewrite bind_run. unfold try_except. rewrite bind_run.
  unfold fstatcache.invalidate_cached_state, modify, os.rename, raise. simpl.
  rewrite Hs.
  repeat case_bool_decide; simpl; by rewrite drop_app_length.
Qed.

Lemma temp_finalize_missing_keeps_placeholder_witness :
  result (TempFileResource.finalize tmp_example "tmp/nothing") tmp_world =
    Raise (OutputMissingException "tmp/nothing").
Proof.
  refine (proj1 (temp_finalize_missing_keeps_placeholder tmp_example "tmp/nothing"
                   tmp_world _)).
  vm_compute. reflexivity.
Defined.

(** X6.  [TempFileResource._save_createtime] when the primary file does
    not exist: it raises the [OSError] of [copystat] (errno 2, the
    primary) only after it has removed the old placeholder and created a
    new one, so the placeholder is left as an empty file with the
    current time and the time it carried is lost. *)
Theorem save_createtime_without_primary (self : TempFileResource.t) (w : world) :
  let f := TempFileResource.filename self in
  let ph := TempFileResource.placeholder_filename self in
  well_formed self → ph ∉ denied w → fs w !! f = None →
  let w' := after (TempFileResource._save_createtime self) w in
  result (TempFileResource._save_createtime self) w = Raise (OSError ENOENT f) ∧
  fs w' !! ph = Some (File "" (now w)) ∧
  (∀ p, p ≠ ph → fs w' !! p = fs w !! p).
Proof.
  intros f ph Hwf Hp Hf w'.
  pose proof (placeholder_neq self Hwf) as Hne. fold f ph in Hne.
  assert (Hrun : ∃ w2,
    TempFileResource._save_createtime self w = (Raise (OSError ENOENT f), w2) ∧
    fs w2 = <[ph := File "" (now w)]> (delete ph (fs w))).
  { unfold TempFileResource._save_createtime. fold f ph.
    rewrite bind_run. unfold fstatcache.invalidate_cached_state at 1, modify.
    rewrite bind_run, saferemove_run by done. simpl.
    set (w1 := match fs w !! ph with Some _ => _ | None => _ end).
    assert (H1 : fs w1 = delete ph (fs w) ∧ denied w1 = denied w ∧ now w1 = now w).
    { unfold w1. destruct (fs w !! ph) eqn:E; simpl; split_and!; try done.
      by rewrite delete_id. }
    destruct H1 as (Hfs1 & Hd1 & Hn1).
    rewrite bind_run, touch_run by by rewrite Hd1.
    unfold copystat. simpl. rewrite Hfs1, Hn1.
    rewrite lookup_insert_ne, lookup_delete_ne, Hf by done.
    eexists. split; [done|]. simpl. by rewrite Hfs1, lookup_delete_eq. }
  destruct Hrun as (w2 & Hrun & Hfs).
  unfold w', result, after. rewrite Hrun. simpl. rewrite Hfs.
  rewrite lookup_insert_eq. split_and!; try done.
  intros p Hpp. by rewrite lookup_insert_ne, lookup_delete_ne.
Qed.

Lemma save_createtime_without_primary_witness :
  fs (after (TempFileResource._save_createtime tmp_example) tmp_world_cleaned)
    !! "tmp/align._placeholder" = Some (File "" 10).
Proof.
  refine (proj1 (proj2
    (save_createtime_without_primary tmp_example tmp_world_cleaned eq_refl _ _))).
  - simpl. apply not_elem_of_empty.
  - vm_compute. reflexivity.
Defined.

(** ** Commit and query; temporary objects, continued *)

(** X9.  After [UserResource.finalize] has committed a staged file,
    whatever the cache held before, [exists] answers true and
    [createtime] answers the time of the staged file, which the rename
    carries over; the staging path is gone. *)
Theorem user_finalize_then_query (self : UserResource.t) (write_filename : string)
    (staged : file) (w : world) :
  let f := UserResource.filename self in
  f ∉ denied w → write_filename ∉ denied w →
  fs w !! write_filename = Some staged →
  let w' := after (UserResource.finalize self write_filename) w in
  result (UserResource.finalize self write_filename) w = Ok () ∧
  fs w' !! f = Some staged ∧
  (write_filename ≠ f → fs w' !! write_filename = None) ∧
  result (UserResource.exists_ self) w' = Ok true ∧
  result (UserResource.createtime self) w' = Ok (Some (mtime staged)).
Proof.
  intros f Hf Hw Hs w'.
  unfold w', result at 1, after, UserResource.exists_, UserResource.createtime.
  rewrite exists_observed, createtime_cache_observed. fold f.
  unfold UserResource.finalize, try_except. fold f.
  rewrite bind_run. unfold fstatcache.invalidate_cached_state, modify, os.rename.
  simpl. rewrite !bool_decide_eq_false_2 by done. rewrite Hs. simpl.
  unfold observed, os.stat_mtime. simpl.
  rewrite lookup_delete_eq, lookup_insert_eq. simpl.
  split_and!; try done.
  intros Hne. by rewrite lookup_insert_ne, lookup_delete_eq.
Qed.

Lemma user_finalize_then_query_witness :
  result (UserResource.createtime user_example)
    (after (UserResource.finalize user_example "tmp/result.staged") user_world)
  = Ok (Some 7).
Proof.
  refine (proj2 (proj2 (proj2 (proj2
    (user_finalize_then_query user_example "tmp/result.staged" (File "x" 7)
       user_world _ _ _))))).
  - simpl. apply not_elem_of_empty.
  - simpl. apply not_elem_of_empty.
  - vm_compute. reflexivity.
Defined.

Section manager_more.
Context {obj : Type} {RT : PyRuntime obj}.
Implicit Types (self : TempObjManager.t) (w : world) (o a b : obj).

(** X7.  Two runs of [TempObjManager.finalize] from a state with no
    input slot: the first writes both slots; the second always rewrites
    the output slot and leaves the input slot, bytes and time, as the
    first run wrote it when [obj_equal] finds the new value equal to the
    first, and overwrites it otherwise. *)
Theorem finalize_twice_dedups self a b w :
  let inp := TempObjResource.filename (TempObjManager.input self) in
  let out := TempObjResource.filename (TempObjManager.output self) in
  inp ≠ out → inp ∉ denied w → out ∉ denied w →
  fs w !! inp = None → coherent w inp →
  let w1 := after (TempObjManager.finalize self a) w in
  let w2 := after (TempObjManager.finalize self b) w1 in
  result (TempObjManager.finalize self a) w = Ok () ∧
  result (TempObjManager.finalize self b) w1 = Ok () ∧
  fs w1 !! inp = Some (File (pickle_dumps a) (now w + 1)) ∧
  fs w1 !! out = Some (File (pickle_dumps a) (now w)) ∧
  fs w2 !! out = Some (File (pickle_dumps b) (now w + 2)) ∧
  fs w2 !! inp =
    (if obj_equal b a then Some (File (pickle_dumps a) (now w + 1))
     else Some (File (pickle_dumps b) (now w + 3))).
Proof.
  intros inp out Hne Hdi Hdo Habs Hco w1 w2.
  assert (Hpk : ∀ stored, fs w !! inp = Some stored →
                          is_Some (pickle_loads (content stored))).
  { intros stored. by rewrite Habs. }
  pose proof (finalize_run self a w Hne Hdi Hdo Hco Hpk) as Hrun1.
  fold inp out in Hrun1. simpl in Hrun1.
  unfold differs_from_input in Hrun1. fold inp in Hrun1. rewrite Habs in Hrun1.
  assert (Hfs1 : fs w1 = <[inp := File (pickle_dumps a) (now w + 1)]>
                           (<[out := File (pickle_dumps a) (now w)]> (fs w))).
  { unfold w1, after. by rewrite Hrun1. }
  assert (Hd1 : denied w1 = denied w) by (unfold w1, after; by rewrite Hrun1).
  assert (Hn1 : now w1 = now w + 2).
  { unfold w1, after. rewrite Hrun1. simpl. lia. }
  assert (Hc1 : cache w1 !! inp = None).
  { unfold w1, after. rewrite Hrun1. simpl.
    by rewrite lookup_delete_ne, lookup_delete_eq. }
  assert (Hin1 : fs w1 !! inp = Some (File (pickle_dumps a) (now w + 1))).
  { rewrite Hfs1. apply lookup_insert_eq. }
  assert (Hco1 : coherent w1 inp).
  { unfold coherent, observed. by rewrite Hc1. }
  assert (Hpk1 : ∀ stored, fs w1 !! inp = Some stored →
                           is_Some (pickle_loads (content stored))).
  { intros stored. rewrite Hin1. intros [= <-]. simpl.
    rewrite pickle_loads_dumps. eauto. }
  pose proof (finalize_run self b w1 Hne) as Hrun2.
  fold inp out in Hrun2. rewrite Hd1 in Hrun2.
  specialize (Hrun2 Hdi Hdo Hco1 Hpk1). simpl in Hrun2.
  unfold differs_from_input in Hrun2. fold inp in Hrun2.
  rewrite Hin1 in Hrun2. simpl in Hrun2.
  rewrite pickle_loads_dumps in Hrun2.
  unfold w2, result, after. rewrite Hrun2, Hrun1. fold w1.
  rewrite Hin1. rewrite Hfs1 at 1. rewrite lookup_insert_ne, lookup_insert_eq by done.
  split_and!; try done.
  - destruct (obj_equal b a); simpl.
    + rewrite lookup_insert_eq, Hn1. done.
    + rewrite lookup_insert_ne, lookup_insert_eq, Hn1 by done. done.
  - destruct (obj_equal b a); simpl.
    + rewrite lookup_insert_ne by done. done.
    + rewrite lookup_insert_eq, Hn1. do 2 f_equal. lia.
Qed.

(** X8.  Two failures of [TempObjManager.finalize], for a value in the
    range of the model.  An output slot that may not be opened makes it
    raise that [IOError] with nothing done.  When the output slot may be
    opened, the stat cache answers that the input slot is absent and the
    input slot may not be opened, it raises the [IOError] of the input
    slot after the output slot is rewritten, and before any cache entry
    is invalidated: the entry of the output slot is what it was. *)
Theorem finalize_fails_before_invalidation self o w :
  let inp := TempObjResource.filename (TempObjManager.input self) in
  let out := TempObjResource.filename (TempObjManager.output self) in
  let w' := after (TempObjManager.finalize self o) w in
  (out ∈ denied w →
   result (TempObjManager.finalize self o) w = Raise (IOError EACCES out) ∧
   w' = w) ∧
  (out ∉ denied w → inp ∈ denied w → observed w inp = None →
   result (TempObjManager.finalize self o) w = Raise (IOError EACCES inp) ∧
   fs w' = <[out := File (pickle_dumps o) (now w)]> (fs w) ∧
   events_since w w' = [EvWrite out] ∧
   cache w' !! out = cache w !! out).
Proof.
  intros inp out w'. unfold w', result, after, events_since.
  destruct (TempObjManager.finalize self o w) as [r wf] eqn:Hrun. simpl.
  split.
  - intros Hdo. revert Hrun. unfold TempObjManager.finalize. fold inp out.
    rewrite bind_run. unfold open_write at 1.
    rewrite bool_decide_eq_true_2 by done. by intros [= <- <-].
  - intros Hdo Hdi Hobs. revert Hrun. unfold TempObjManager.finalize. fold inp out.
    rewrite bind_run. unfold open_write at 1.
    rewrite bool_decide_eq_false_2 by done.
    assert (Hne : inp ≠ out) by (intros Heq; apply Hdo; by rewrite <- Heq).
    rewrite bind_run. unfold TempObjResource.exists_. rewrite get_exists_run.
    fold inp. set (wa := emit _ _).
    assert (Hobs' : observed wa inp = None).
    { revert Hobs. unfold observed, os.stat_mtime. simpl.
      by rewrite lookup_insert_ne. }
    rewrite Hobs'. simpl.
    unfold mbind, M_bind, bind, ret, open_write. simpl.
    rewrite bool_decide_eq_true_2 by done. intros [= <- <-]. simpl.
    rewrite drop_app_length, Hobs'.
    split_and!; try done.
    by rewrite lookup_insert_ne.
Qed.

End manager_more.

Lemma finalize_twice_dedups_witness :
  fs (after (TempObjManager.finalize obj_manager (Py2.Atom (Py2.AInt 7)))
        (after (TempObjManager.finalize obj_manager (Py2.Atom (Py2.AInt 7)))
           empty_world))
    !! "tmp/obj._o" =
  (if obj_equal (Py2.Atom (Py2.AInt 7)) (Py2.Atom (Py2.AInt 7))
   then Some (File (pickle_dumps (Py2.Atom (Py2.AInt 7))) (0 + 1))
   else Some (File (pickle_dumps (Py2.Atom (Py2.AInt 7))) (0 + 3))).
Proof.
  refine (proj2 (proj2 (proj2 (proj2 (proj2
    (finalize_twice_dedups obj_manager (Py2.Atom (Py2.AInt 7))
       (Py2.Atom (Py2.AInt 7)) empty_world _ _ _ _ _)))))).
  - discriminate.
  - simpl. apply not_elem_of_empty.
  - simpl. apply not_elem_of_empty.
  - simpl. apply lookup_empty.
  - reflexivity.
Defined.

(** X8 on [obj_manager]: a first run whose input slot may not be
    opened. *)
Lemma finalize_fails_before_invalidation_witness :
  result (TempObjManager.finalize obj_manager (Py2.Atom (Py2.AInt 7)))
    world_input_unwritable = Raise (IOError EACCES "tmp/obj._o").
Proof.
  refine (proj1 (proj2
    (finalize_fails_before_invalidation obj_manager (Py2.Atom (Py2.AInt 7))
       world_input_unwritable) _ _ _)).
  - simpl. set_solver.
  - simpl. set_solver.
  - reflexivity.
Defined.

(** ** Filename resolution, continued; display names *)

Section format.
Variable kw : gmap string chunk.

Lemma format_go_plain (c : ascii) (rest : string) :
  c ≠ "{"%char → c ≠ "}"%char →
  format_go kw None (String c rest) = prepend (String c "") (format_go kw None rest).
Proof.
  intros H1 H2.
  destruct c as [[] [] [] [] [] [] [] []]; try done.
Qed.

Lemma format_go_field_char (f : string) (c : ascii) (rest : string) :
  c ∉ ["}"; "!"; ":"; "."; "["; "{"]%char →
  format_go kw (Some f) (String c rest) = format_go kw (Some (f +:+ String c "")) rest.
Proof.
  intros H2.
  destruct c as [[] [] [] [] [] [] [] []]; try reflexivity;
    exfalso; apply H2; set_solver.
Qed.

Lemma format_go_open (c : ascii) (rest : string) :
  c ≠ "{"%char →
  format_go kw None (String "{" (String c rest)) = format_go kw (Some "") (String c rest).
Proof.
  intros H1.
  destruct c as [[] [] [] [] [] [] [] []]; try done.
Qed.

Lemma format_go_close (f rest : string) :
  format_go kw (Some f) (String "}" rest) =
    match format_field kw f with
    | Value v => prepend v (format_go kw None rest)
    | r => r
    end.
Proof. done. Qed.

Lemma format_go_escape (rest : string) :
  format_go kw None (String "{" (String "{" rest)) = prepend "{" (format_go kw None rest) ∧
  format_go kw None (String "}" (String "}" rest)) = prepend "}" (format_go kw None rest).
Proof. done. Qed.

Lemma prepend_prepend (p q : string) (r : presult) :
  prepend p (prepend q r) = prepend (p +:+ q) r.
Proof.
  destruct r; simpl; try done. f_equal.
  induction p as [|c p IH]; [done|].
  change (String c (p +:+ q +:+ s) = String c ((p +:+ q) +:+ s)). by rewrite IH.
Qed.

Lemma append_assoc (p q r : string) : (p +:+ q) +:+ r = p +:+ q +:+ r.
Proof.
  induction p as [|c p IH]; [done|].
  change (String c ((p +:+ q) +:+ r) = String c (p +:+ q +:+ r)). by rewrite IH.
Qed.

Lemma format_go_no_braces (pre rest : string) :
  no_braces pre = true →
  format_go kw None (pre +:+ rest) = prepend pre (format_go kw None rest).
Proof.
  induction pre as [|c pre IH]; intros Hb.
  - change (format_go kw None rest = prepend "" (format_go kw None rest)).
    by destruct (format_go kw None rest).
  - simpl in Hb. apply andb_prop in Hb as [Hc Hb]. apply andb_prop in Hc as [H1 H2].
    apply negb_true_iff, bool_decide_eq_false in H1, H2.
    change (format_go kw None (String c (pre +:+ rest)) =
            prepend (String c pre) (format_go kw None rest)).
    rewrite format_go_plain, IH, prepend_prepend by done. done.
Qed.



Lemma format_go_errors (s : string) :
  (∀ field e, format_go kw field s = Error e → is_format_error e = true) ∧
  (∀ c field e, format_go kw field (String c s) = Error e → is_format_error e = true).
Proof.
  assert (Hpre : ∀ p r e, prepend p r = Error e → r = Error e).
  { intros p [s0|e0|] e; simpl; congruence. }
  assert (Hff : ∀ f e, format_field kw f = Error e → is_format_error e = true).
  { intros f e. unfold format_field.
    destruct (all_digits f);
      [destruct (PY_SSIZE_T_MAX <? digits_value 0 f); by intros [= <-]|].
    destruct (kw !! f); [done|by intros [= <-]]. }
  assert (Hstep : ∀ s', (∀ field e, format_go kw field s' = Error e →
                                    is_format_error e = true) →
    (∀ d field e, format_go kw field (String d s') = Error e →
                  is_format_error e = true) →
    ∀ c d field e, format_go kw field (String c (String d s')) = Error e →
                   is_format_error e = true).
  { intros s' H0 H1 c d [f|] e.
    - destruct (decide (c = "}"%char)) as [->|Hc].
      + rewrite format_go_close. destruct (format_field kw f) eqn:Hfe; try done.
        * intros He. apply Hpre in He. eauto.
        * intros [= <-]. eauto.
      + destruct (decide (c ∈ ["}"; "!"; ":"; "."; "["; "{"]%char)) as [Hs|Hs].
        * assert (format_go kw (Some f) (String c (String d s')) = Unmodelled) as ->;
            [|done].
          apply elem_of_cons in Hs as [->|Hs]; [done|].
          repeat (apply elem_of_cons in Hs as [->|Hs]; [reflexivity|]).
          by apply elem_of_nil in Hs.
        * rewrite format_go_field_char by done. eauto.
    - destruct (decide (c = "{"%char)) as [->|Hc1].
      + destruct (decide (d = "{"%char)) as [->|Hd].
        * rewrite (proj1 (format_go_escape _)). intros He. apply Hpre in He. eauto.
        * rewrite format_go_open by done. eauto.
      + destruct (decide (c = "}"%char)) as [->|Hc2].
        * destruct (decide (d = "}"%char)) as [->|Hd].
          -- rewrite (proj2 (format_go_escape _)). intros He. apply Hpre in He. eauto.
          -- assert (format_go kw None (String "}" (String d s')) =
               Error (ValueError "Single '}' encountered in format string")) as ->.
             { destruct d as [[] [] [] [] [] [] [] []]; try done. }
             by intros [= <-].
        * rewrite format_go_plain by done. intros He. apply Hpre in He. eauto. }
  assert (Hone : ∀ c field e, format_go kw field (String c "") = Error e →
                              is_format_error e = true).
  { intros c [f|] e.
    - destruct (decide (c = "}"%char)) as [->|Hc].
      + rewrite format_go_close. destruct (format_field kw f) eqn:Hfe; try done.
        intros [= <-]. eauto.
      + destruct (decide (c ∈ ["}"; "!"; ":"; "."; "["; "{"]%char)) as [Hs|Hs].
        * assert (format_go kw (Some f) (String c "") = Unmodelled) as ->; [|done].
          apply elem_of_cons in Hs as [->|Hs]; [done|].
          repeat (apply elem_of_cons in Hs as [->|Hs]; [reflexivity|]).
          by apply elem_of_nil in Hs.
        * rewrite format_go_field_char by done. simpl. by intros [= <-].
    - destruct (decide (c = "{"%char)) as [->|Hc1]; [simpl; by intros [= <-]|].
      destruct (decide (c = "}"%char)) as [->|Hc2]; [simpl; by intros [= <-]|].
      by rewrite format_go_plain. }
  induction s as [|d s [IH0 IH1]].
  - split; [|exact Hone]. intros [f|] e; simpl; [by intros [= <-]|done].
  - split; [exact (IH1 d)|]. intros c. by apply Hstep.
Qed.

Lemma plain_template_plain (c : ascii) (rest : string) :
  c ≠ "{"%char → c ≠ "}"%char →
  plain_template false (String c rest) = plain_template false rest.
Proof.
  intros H1 H2. destruct c as [[] [] [] [] [] [] [] []]; try done.
Qed.

Lemma plain_template_open (c : ascii) (rest : string) :
  c ≠ "{"%char →
  plain_template false (String "{" (String c rest)) = plain_template true (String c rest).
Proof.
  intros H1. destruct c as [[] [] [] [] [] [] [] []]; try done.
Qed.

Lemma plain_template_close (c : ascii) (rest : string) :
  c ≠ "}"%char →
  plain_template false (String "}" (String c rest)) = plain_template false (String c rest).
Proof.
  intros H1. destruct c as [[] [] [] [] [] [] [] []]; try done.
Qed.

Lemma plain_template_field_char (c : ascii) (rest : string) :
  c ≠ "}"%char →
  plain_template true (String c rest) =
    negb (bool_decide (c ∈ ["!"; ":"; "."; "["; "{"]%char)) && plain_template true rest.
Proof.
  intros H1. destruct c as [[] [] [] [] [] [] [] []]; try done.
Qed.

Lemma format_go_modelled (s : string) :
  (∀ field, plain_template (bool_decide (is_Some field)) s = true →
            format_go kw field s ≠ Unmodelled) ∧
  (∀ c field, plain_template (bool_decide (is_Some field)) (String c s) = true →
              format_go kw field (String c s) ≠ Unmodelled).
Proof.
  assert (Hpre : ∀ p r, r ≠ Unmodelled → prepend p r ≠ Unmodelled).
  { intros p [s0|e0|]; simpl; congruence. }
  assert (Hff : ∀ f, format_field kw f ≠ Unmodelled).
  { intros f. unfold format_field.
    destruct (all_digits f);
      [by destruct (PY_SSIZE_T_MAX <? digits_value 0 f)|].
    by destruct (kw !! f). }
  assert (Hclose : ∀ f rest, format_go kw None rest ≠ Unmodelled →
                             format_go kw (Some f) (String "}" rest) ≠ Unmodelled).
  { intros f rest Hr. rewrite format_go_close.
    specialize (Hff f). destruct (format_field kw f); try done. by apply Hpre. }
  assert (Hsome : ∀ f : string, bool_decide (is_Some (Some f)) = true).
  { intros f. by apply bool_decide_eq_true_2. }
  assert (Hnone : bool_decide (is_Some (@None string)) = false).
  { apply bool_decide_eq_false_2. by intros [? ?]. }
  assert (Hchar : ∀ f c rest, c ≠ "}"%char →
    plain_template true (String c rest) = true →
    (∀ f', format_go kw (Some f') rest ≠ Unmodelled) →
    format_go kw (Some f) (String c rest) ≠ Unmodelled).
  { intros f c rest Hc Hp Hr.
    rewrite plain_template_field_char in Hp by done.
    apply andb_prop in Hp as [Hs _].
    apply negb_true_iff, bool_decide_eq_false in Hs.
    rewrite format_go_field_char; [apply Hr|].
    intros Hin. apply elem_of_cons in Hin as [->|Hin]; done. }
  assert (Hstep : ∀ s',
    (∀ field, plain_template (bool_decide (is_Some field)) s' = true →
              format_go kw field s' ≠ Unmodelled) →
    (∀ d field, plain_template (bool_decide (is_Some field)) (String d s') = true →
                format_go kw field (String d s') ≠ Unmodelled) →
    ∀ c d field,
      plain_template (bool_decide (is_Some field)) (String c (String d s')) = true →
      format_go kw field (String c (String d s')) ≠ Unmodelled).
  { intros s' H0 H1 c d [f|].
    - rewrite Hsome. intros Hp.
      destruct (decide (c = "}"%char)) as [->|Hc].
      + apply Hclose. apply (H1 d None). by rewrite Hnone.
      + apply Hchar; [done..|]. intros f'. apply (H1 d (Some f')).
        rewrite Hsome. rewrite plain_template_field_char in Hp by done.
        by apply andb_prop in Hp as [_ Hp].
    - rewrite Hnone. intros Hp.
      destruct (decide (c = "{"%char)) as [->|Hc1].
      + destruct (decide (d = "{"%char)) as [->|Hd].
        * rewrite (proj1 (format_go_escape _)). apply Hpre, (H0 None).
          by rewrite Hnone.
        * rewrite format_go_open by done. apply (H1 d (Some "")).
          rewrite Hsome. by rewrite plain_template_open in Hp.
      + destruct (decide (c = "}"%char)) as [->|Hc2].
        * destruct (decide (d = "}"%char)) as [->|Hd].
          -- rewrite (proj2 (format_go_escape _)). apply Hpre, (H0 None).
             by rewrite Hnone.
          -- assert (format_go kw None (String "}" (String d s')) =
               Error (ValueError "Single '}' encountered in format string")) as ->.
             { destruct d as [[] [] [] [] [] [] [] []]; try done. }
             done.
        * rewrite format_go_plain by done. apply Hpre, (H1 d None).
          rewrite Hnone. by rewrite plain_template_plain in Hp. }
  assert (Hone : ∀ c field,
    plain_template (bool_decide (is_Some field)) (String c "") = true →
    format_go kw field (String c "") ≠ Unmodelled).
  { intros c [f|].
    - rewrite Hsome. intros Hp.
      destruct (decide (c = "}"%char)) as [->|Hc]; [by apply Hclose|].
      by apply Hchar.
    - intros _.
      destruct (decide (c = "{"%char)) as [->|Hc1]; [done|].
      destruct (decide (c = "}"%char)) as [->|Hc2]; [done|].
      by rewrite format_go_plain. }
  induction s as [|d s [IH0 IH1]].
  - split; [|exact Hone]. by intros [f|] _.
  - split; [exact (IH1 d)|]. intros c. by apply Hstep.
Qed.

End format.

Lemma check_template_passes (template : string) (node : Node) :
  Forall (λ ac, contains ac.1 template = true) node →
  _check_template template node = Value "".
Proof.
  induction 1 as [|[axis c] node Hc _ IH]; simpl; [done|].
  simpl in Hc. by rewrite Hc.
Qed.

(** X10.  With a table of filenames [resolve_user_filename] never raises
    and never reads the template: it answers the entry of the table
    under the single axis value of a node with one axis, under the tuple
    of axis values otherwise, and [name] when the table has no such
    entry. *)
Theorem table_lookup_total (name : string) (node : Node)
    (fnames : gmap fkey string) (template : option string) :
  resolve_user_filename name node (Some fnames) template =
    Value (default name (fnames !! fname_key node)) ∧
  resolve_user_filename name node (Some fnames) template =
    resolve_user_filename name node (Some fnames) None.
Proof.
  split; [|done]. unfold resolve_user_filename, fname_key.
  destruct node as [|[a c] [|[a' c'] node]]; simpl; try done.
Qed.

(** X11.  With [name] as the template, and a name whose replacement
    fields are plain (no conversion, format specification, attribute or
    index), [resolve_user_filename] answers a filename or raises a
    [ValueError] or the [IndexError] of a positional field: the
    [KeyError] of a field the node does not bind never comes out. *)
Theorem name_branch_errors (name : string) (node : Node) :
  plain_template false name = true →
  match resolve_user_filename name node None None with
  | Value _ | Error (ValueError _) | Error (IndexError _) => True
  | Error _ | Unmodelled => False
  end.
Proof.
  intros Hplain. unfold resolve_user_filename.
  pose proof (check_template_spec name node) as Hc.
  destruct (_check_template name node) as [s|e|]; [| |done].
  - pose proof (proj1 (format_go_errors (dict_of_node node) name) None) as He.
    pose proof (proj1 (format_go_modelled (dict_of_node node) name) None) as Hm.
    rewrite bool_decide_eq_false_2 in Hm by (by intros [? ?]).
    specialize (Hm Hplain).
    unfold str_format.
    destruct (format_go (dict_of_node node) None name) as [s'|e|]; [done| |done].
    specialize (He e eq_refl). by destruct e.
  - by destruct Hc as (axis & _ & _ & ->).
Qed.

Lemma name_branch_errors_witness :
  match resolve_user_filename "{sample}/{chunk}.txt" [("sample", ChunkStr "s1")]
          None None with
  | Value _ | Error (ValueError _) | Error (IndexError _) => True
  | Error _ | Unmodelled => False
  end.
Proof.
  apply (name_branch_errors "{sample}/{chunk}.txt" [("sample", ChunkStr "s1")]).
  reflexivity.
Defined.

(** X12.  [_check_template] passes exactly when the name of every axis
    of the node occurs somewhere in the template, as a substring and not
    necessarily as a placeholder; otherwise it raises a [ValueError]
    whose message names the first axis, in the order of the node, that
    does not occur. *)
Theorem check_template_first_missing (template : string) (node : Node) :
  match _check_template template node with
  | Value _ => ∀ axis, axis ∈ node.*1 → contains axis template = true
  | Error e =>
      ∃ before axis after,
        node.*1 = before ++ axis :: after ∧
        (∀ b, b ∈ before → contains b template = true) ∧
        contains axis template = false ∧
        e = ValueError ("filename template " +:+ template +:+
                        " does not contain {" +:+ axis +:+ "}")
  | Unmodelled => False
  end.
Proof.
  induction node as [|[axis c] node IH]; cbn [_check_template].
  - intros axis Ha. by apply elem_of_nil in Ha.
  - rewrite fmap_cons. cbn [fst].
    destruct (contains axis template) eqn:Hc; cbn [negb].
    + destruct (_check_template template node) as [s|e|]; [| |done].
      * intros a Ha. apply elem_of_cons in Ha as [->|Ha]; eauto.
      * destruct IH as (before & a & after & Heq & Hb & Hn & ->).
        exists (axis :: before), a, after. rewrite Heq. split_and!; try done.
        intros b Hin. apply elem_of_cons in Hin as [->|Hin]; eauto.
    + exists [], axis, (node.*1). split_and!; try done.
      intros b Hb. by apply elem_of_nil in Hb.
Qed.

(** X13.  A template without braces in which the name of every axis
    occurs resolves to itself, given as [template] or as [name],
    whatever values the node binds: all the nodes over these axes get
    the same filename. *)
Theorem literal_template_aliases (name template : string) (node : Node) :
  no_braces template = true →
  Forall (λ ac, contains ac.1 template = true) node →
  resolve_user_filename name node None (Some template) = Value template ∧
  resolve_user_filename template node None None = Value template.
Proof.
  intros Hb Hc.
  assert (Hfmt : ∀ kw, format_go kw None template = Value template).
  { intros kw. rewrite <- (append_empty_r template) at 1.
    rewrite format_go_no_braces by done.
    change (Value (template +:+ "") = Value template).
    by rewrite append_empty_r. }
  unfold resolve_user_filename, str_format.
  rewrite check_template_passes by done. by rewrite Hfmt.
Qed.

Lemma literal_template_aliases_witness :
  resolve_user_filename "out" [("sample", ChunkStr "s1")] None (Some "samples.txt")
    = Value "samples.txt" ∧
  resolve_user_filename "out" [("sample", ChunkStr "s2")] None (Some "samples.txt")
    = Value "samples.txt".
Proof.
  split.
  - refine (proj1 (literal_template_aliases "out" "samples.txt"
                     [("sample", ChunkStr "s1")] _ _)).
    + reflexivity.
    + repeat constructor.
  - refine (proj1 (literal_template_aliases "out" "samples.txt"
                     [("sample", ChunkStr "s2")] _ _)).
    + reflexivity.
    + repeat constructor.
Defined.



Section displaynames.
Variable displayname : Node → string.

Lemma build_displayname_absolute (self : Dependency.t) (base_node : Node) :
  ∃ rest, Dependency.build_displayname displayname self base_node = String "/" rest.
Proof.
  unfold Dependency.build_displayname.
  repeat case_bool_decide; simpl; eauto.
Qed.

(** X15.  [Dependency.build_displayname] is the path made of the display
    name of the base node, the display name of the node and the name,
    each after a slash, an empty display name being left out: the
    answer starts with a slash and has no empty segment from an empty
    display name. *)
Theorem build_displayname_joins (self : Dependency.t) (base_node : Node) :
  Dependency.build_displayname displayname self base_node =
    foldr (λ part acc, "/" +:+ part +:+ acc) ""
      (displayname_parts displayname self base_node) ∧
  ∃ rest, Dependency.build_displayname displayname self base_node = String "/" rest.
Proof.
  split; [|apply build_displayname_absolute].
  unfold Dependency.build_displayname, displayname_parts.
  rewrite !filter_cons, filter_nil.
  destruct (decide (displayname base_node ≠ "")) as [Hb|Hb];
    destruct (decide (displayname (Dependency.node self) ≠ "")) as [Hn|Hn];
    repeat case_bool_decide; try done; simpl;
    rewrite ?append_empty_r, ?append_assoc; done.
Qed.

(** X16.  [build_displayname_filename] shows a user resource as its
    filename alone.  It shows a temporary file as its display name, and
    adds a space and the filename when the two differ; they differ
    whenever the filename does not start with a slash. *)
Theorem displayname_filename_cases (user : UserResource.t)
    (temp : TempFileResource.t) (base_node : Node) :
  let d := TempFileResource.build_displayname displayname temp base_node in
  let f := TempFileResource.filename temp in
  UserResource.build_displayname_filename user = UserResource.filename user ∧
  TempFileResource.build_displayname_filename displayname temp base_node =
    (if decide (d = f) then f else d +:+ " " +:+ f) ∧
  ((∀ rest, f ≠ String "/" rest) →
   TempFileResource.build_displayname_filename displayname temp base_node =
     d +:+ " " +:+ f).
Proof.
  intros d f. split_and!.
  - unfold UserResource.build_displayname_filename,
      Resource.build_displayname_filename, UserResource.build_displayname.
    by rewrite bool_decide_eq_true_2.
  - unfold TempFileResource.build_displayname_filename,
      Resource.build_displayname_filename. fold d f.
    destruct (decide (d = f)) as [->|Hne].
    + by rewrite bool_decide_eq_true_2.
    + by rewrite bool_decide_eq_false_2.
  - intros Hrel.
    unfold TempFileResource.build_displayname_filename,
      Resource.build_displayname_filename. fold d f.
    rewrite bool_decide_eq_false_2; [done|].
    destruct (build_displayname_absolute
                (Dependency.Make (TempFileResource.name temp)
                                 (TempFileResource.node temp)) base_node)
      as [rest Hrest].
    unfold d, TempFileResource.build_displayname. rewrite Hrest.
    intros Heq. by apply (Hrel rest).
Qed.

End displaynames.
